(** * Fancoil Modbus climate entity: register mapping

    A shallow embedding of [custom_components/modbus-fancoil/climate.py]
    (class [Fancoil]) and the properties of its register mapping.

    Python integers are [Z] (unbounded, two's complement bit operations, as
    [Z.land], [Z.lor] and [Z.lnot] have them); Python floats are the kernel's
    binary64 floats, whose operations are the IEEE 754 ones Python uses.  The
    coroutines are sequential, so [await] is plain sequencing in a monad that
    threads the entity's attributes and the hub, records the hub calls and the
    logger calls in order, and propagates [return] and exceptions. *)

From Stdlib Require Import ZArith List String Bool Lia Floats Uint63.
Import ListNotations.
Open Scope Z_scope.

(** ** Python values *)

(** The exceptions the modelled code can raise: [list.index] on a missing
    element, [int] of a NaN (both [ValueError]) and [int] of an infinity or
    [float] of an integer beyond the binary64 range ([OverflowError]). *)
Inductive exn : Type :=
| ValueError
| OverflowError.

(** A number held by a temperature attribute: the integer sentinel or a
    float. *)
Inductive pynum : Type :=
| PyInt (z : Z)
| PyFloat (f : float).

(** [float(z)]: the binary64 value nearest to [z], [OverflowError] beyond the
    range. *)
Definition float_ (z : Z) : exn + float :=
  if Z.abs z <? 2 ^ 63 then
    inr (if z <? 0
         then PrimFloat.opp (PrimFloat.of_uint63 (Uint63.of_Z (- z)))
         else PrimFloat.of_uint63 (Uint63.of_Z z))
  else
    let f := SF2Prim (binary_normalize prec emax z 0 false) in
    if PrimFloat.is_infinity f then inl OverflowError else inr f.

(** [int(f)]: truncation toward zero. *)
Definition int_ (f : float) : exn + Z :=
  match Prim2SF f with
  | S754_zero _ => inr 0
  | S754_infinity _ => inl OverflowError
  | S754_nan => inl ValueError
  | S754_finite s m e =>
      inr (if s then - Z.shiftl (Zpos m) e else Z.shiftl (Zpos m) e)
  end.

(** The specification's wording of the temperature encoding, "rounded to the
    nearest integer", as Python's [round] does it: a tie goes to the even
    integer.  The code calls [int], not this. *)
Definition nearest_integer (f : float) : exn + Z :=
  match Prim2SF f with
  | S754_zero _ => inr 0
  | S754_infinity _ => inl OverflowError
  | S754_nan => inl ValueError
  | S754_finite s m e =>
      let mag :=
        if 0 <=? e then Z.shiftl (Zpos m) e
        else
          let d := 2 ^ (- e) in
          let q := Zpos m / d in
          match (2 * (Zpos m mod d)) ?= d with
          | Lt => q
          | Gt => q + 1
          | Eq => if Z.even q then q else q + 1
          end in
      inr (if s then - mag else mag)
  end.

(** [bool(f)] for a float: false exactly on the two zeros. *)
Definition float_truthy (f : float) : bool := negb (PrimFloat.eqb f 0%float).

(** [l.index(x)] on a list of strings. *)
Fixpoint index (l : list string) (x : string) : exn + Z :=
  match l with
  | [] => inl ValueError
  | y :: l' =>
      if String.eqb y x then inr 0
      else match index l' x with
           | inr i => inr (i + 1)
           | inl e => inl e
           end
  end.

(** [homeassistant.components.climate.HVACMode]. *)
Inductive HVACMode : Type :=
| OFF
| HEAT
| COOL
| HEAT_COOL
| AUTO
| DRY
| FAN_ONLY.

Definition HVACMode_eqb (a b : HVACMode) : bool :=
  match a, b with
  | OFF, OFF | HEAT, HEAT | COOL, COOL | HEAT_COOL, HEAT_COOL
  | AUTO, AUTO | DRY, DRY | FAN_ONLY, FAN_ONLY => true
  | _, _ => false
  end.

(** ** The entity *)

(** The attributes of a [Fancoil] the operations read or assign.  [None] is
    Python's [None], the value of an attribute before its first refresh. *)
Record Fancoil : Type := mkFancoil {
  _slave : Z;
  _attr_target_temperature : option pynum;
  _attr_current_temperature : option pynum;
  _attr_actual_air_speed : option Z;
  _water_temperature : option Z;
  _attr_fan_mode : option string;
  _attr_hvac_mode : option HVACMode
}.

Definition _attr_fan_modes : list string :=
  ["Auto"; "Silent"; "Night"; "High"]%string.

Definition set_attr_target_temperature (v : option pynum) (f : Fancoil) :=
  mkFancoil (_slave f) v (_attr_current_temperature f)
    (_attr_actual_air_speed f) (_water_temperature f)
    (_attr_fan_mode f) (_attr_hvac_mode f).

Definition set_attr_current_temperature (v : option pynum) (f : Fancoil) :=
  mkFancoil (_slave f) (_attr_target_temperature f) v
    (_attr_actual_air_speed f) (_water_temperature f)
    (_attr_fan_mode f) (_attr_hvac_mode f).

Definition set_attr_actual_air_speed (v : option Z) (f : Fancoil) :=
  mkFancoil (_slave f) (_attr_target_temperature f)
    (_attr_current_temperature f) v (_water_temperature f)
    (_attr_fan_mode f) (_attr_hvac_mode f).

Definition set_water_temperature (v : option Z) (f : Fancoil) :=
  mkFancoil (_slave f) (_attr_target_temperature f)
    (_attr_current_temperature f) (_attr_actual_air_speed f) v
    (_attr_fan_mode f) (_attr_hvac_mode f).

Definition set_attr_fan_mode (v : option string) (f : Fancoil) :=
  mkFancoil (_slave f) (_attr_target_temperature f)
    (_attr_current_temperature f) (_attr_actual_air_speed f)
    (_water_temperature f) v (_attr_hvac_mode f).

Definition set_attr_hvac_mode (v : option HVACMode) (f : Fancoil) :=
  mkFancoil (_slave f) (_attr_target_temperature f)
    (_attr_current_temperature f) (_attr_actual_air_speed f)
    (_water_temperature f) (_attr_fan_mode f) v.

(** [_attr_hvac_modes] (line 67). *)
Definition _attr_hvac_modes : list HVACMode := [COOL; HEAT; OFF].

(** The mode attributes hold a mode of the entity's lists, or nothing. *)
Definition modes_ok (f : Fancoil) : Prop :=
  (forall m, _attr_fan_mode f = Some m -> In m _attr_fan_modes) /\
  (forall m, _attr_hvac_mode f = Some m -> In m _attr_hvac_modes).

(** [_is_set(x, n)]: [x & 1 << n != 0]. *)
Definition _is_set (x n : Z) : bool :=
  negb (Z.land x (Z.shiftl 1 n) =? 0).

(** [extra_state_attributes] (lines 160-166): the dictionary, as the list
    of its items in insertion order. *)
Definition extra_state_attributes (f : Fancoil) : list (string * option Z) :=
  [("water_temperature"%string, _water_temperature f);
   ("fan_speed"%string, _attr_actual_air_speed f)].

(** ** Observable events *)

(** What an operation does to the outside: a holding-register read through
    the hub with its reply ([None], or the value of [registers[0]]), a
    register write with its reply, and an error record handed to the logger
    with its arguments. *)
Inductive event : Type :=
| PbRead (slave address : Z) (result : option Z)
| PbWrite (slave address value : Z) (result : bool)
| LogError (msg : string) (args : list Z).

(** How a piece of a coroutine's body ends: with a value, by [return], or by
    an exception. *)
Inductive outcome (A : Type) : Type :=
| Value (a : A)
| Returned
| Raised (e : exn).

Arguments Value {A} a.
Arguments Returned {A}.
Arguments Raised {A} e.

(** The addresses a log reads, in order. *)
Fixpoint read_addresses (l : list event) : list Z :=
  match l with
  | [] => []
  | PbRead _ a _ :: l' => a :: read_addresses l'
  | _ :: l' => read_addresses l'
  end.

(** The writes of a log, in order: address and value. *)
Fixpoint writes_of (l : list event) : list (Z * Z) :=
  match l with
  | [] => []
  | PbWrite _ a v _ :: l' => (a, v) :: writes_of l'
  | _ :: l' => writes_of l'
  end.

(** The error records of a log, in order. *)
Fixpoint errors_of (l : list event) : list string :=
  match l with
  | [] => []
  | LogError msg _ :: l' => msg :: errors_of l'
  | _ :: l' => errors_of l'
  end.

(** ** A simulated hub

    A register file behind a bus that is either up or down: a read of a
    register the file holds answers its value, anything else fails; a write
    on a bus that is up updates the file. *)
Record SimHub : Type := mkSimHub {
  sim_up : bool;
  sim_regs : list (Z * Z)
}.

Fixpoint sim_lookup (regs : list (Z * Z)) (a : Z) : option Z :=
  match regs with
  | [] => None
  | (k, v) :: rest => if k =? a then Some v else sim_lookup rest a
  end.

Definition sim_read (h : SimHub) (slave address : Z) : option Z * SimHub :=
  ((if sim_up h then sim_lookup (sim_regs h) address else None), h).

Definition sim_write (h : SimHub) (slave address value : Z) : bool * SimHub :=
  if sim_up h
  then (true, mkSimHub true ((address, value) :: sim_regs h))
  else (false, h).

(** An entity before its first refresh, for slave 1. *)
Definition fresh : Fancoil := mkFancoil 1 None None None None None None.

(** An entity between two refreshes. *)
Definition settled : Fancoil :=
  mkFancoil 1 (Some (PyFloat 21%float)) (Some (PyFloat 19.5%float))
    (Some 2) (Some 40) (Some "Night"%string) (Some COOL).

(** The register file of the specification's scenario, by flags and season. *)
Definition scenario (flags season : Z) : SimHub :=
  mkSimHub true
    [(231, 220); (0, 200); (15, 3); (1, 45); (201, flags); (233, season)].

Section WithHub.

(** The hub is a collaborator: any type of hub states, with any replies. *)
Variable Hub : Type.

(** [async_pb_call(slave, address, 1, CALL_TYPE_REGISTER_HOLDING)]. *)
Variable async_pb_call_read : Hub -> Z -> Z -> option Z * Hub.

(** [async_pb_call(slave, address, value, CALL_TYPE_WRITE_REGISTER)]. *)
Variable async_pb_call_write : Hub -> Z -> Z -> Z -> bool * Hub.

(** ** The monad of the coroutines *)

(** What a coroutine runs in: the entity, the hub behind [self._hub], and
    the events so far, oldest first. *)
Record world : Type := mkWorld {
  self : Fancoil;
  hub : Hub;
  log : list event
}.

Definition M (A : Type) : Type := world -> outcome A * world.

Definition ret {A : Type} (a : A) : M A := fun w => (Value a, w).

Definition bind {A B : Type} (c : M A) (k : A -> M B) : M B :=
  fun w =>
    match c w with
    | (Value a, w1) => k a w1
    | (Returned, w1) => (Returned, w1)
    | (Raised e, w1) => (Raised e, w1)
    end.

Notation "x <- c1 ;; c2" := (bind c1 (fun x => c2))
  (at level 61, c1 at next level, right associativity).
Notation "c1 ;; c2" := (bind c1 (fun _ => c2))
  (at level 61, right associativity).

(** The [return] statement. *)
Definition return_ {A : Type} : M A := fun w => (Returned, w).

Definition raise {A : Type} (e : exn) : M A := fun w => (Raised e, w).

(** A value or the exception computing it raised. *)
Definition lift {A : Type} (r : exn + A) : M A :=
  match r with
  | inr a => ret a
  | inl e => raise e
  end.

(** A function body: falling off its end and [return] both answer [None]. *)
Definition def_ (body : M unit) : M unit :=
  fun w =>
    match body w with
    | (Returned, w1) => (Value tt, w1)
    | r => r
    end.

Definition assign (upd : Fancoil -> Fancoil) : M unit :=
  fun w => (Value tt, mkWorld (upd (self w)) (hub w) (log w)).

Definition emit (e : event) (w : world) : world :=
  mkWorld (self w) (hub w) (log w ++ [e]).

Definition _LOGGER_error (msg : string) (args : list Z) : M unit :=
  fun w => (Value tt, emit (LogError msg args) w).

(** A call of the operation [c] on the entity [f] with the hub in state [h]:
    how it ends, and the world it leaves, with the events of the call. *)
Definition call {A : Type} (c : M A) (f : Fancoil) (h : Hub) :
  outcome A * world :=
  c (mkWorld f h []).

(** ** The register helpers *)

(** [_async_write_int16_to_register] (lines 242-245). *)
Definition _async_write_int16_to_register (register value : Z) : M bool :=
  fun w =>
    match async_pb_call_write (hub w) (_slave (self w)) register value with
    | (ok, h) =>
        (Value ok,
         emit (PbWrite (_slave (self w)) register value ok)
           (mkWorld (self w) h (log w)))
    end.

(** [await self._hub.async_pb_call(self._slave, register, 1, register_type)]. *)
Definition hub_read (register : Z) : M (option Z) :=
  fun w =>
    match async_pb_call_read (hub w) (_slave (self w)) register with
    | (r, h) =>
        (Value r,
         emit (PbRead (_slave (self w)) register r)
           (mkWorld (self w) h (log w)))
    end.

(** [_async_read_int16_from_register] (lines 221-230): -1 when the hub
    answers [None]. *)
Definition _async_read_int16_from_register (register : Z) : M Z :=
  result <- hub_read register ;;
  match result with
  | None =>
      _LOGGER_error "Error reading value from Flexit modbus adapter" [] ;;
      ret (-1)
  | Some registers_0 => ret registers_0
  end.

(** [_async_read_temp_from_register] (lines 232-240): the integer -1 for a
    falsy float, the float divided by 10.0 otherwise. *)
Definition _async_read_temp_from_register (register : Z) : M pynum :=
  raw <- _async_read_int16_from_register register ;;
  result <- lift (float_ raw) ;;
  if negb (float_truthy result) then ret (PyInt (-1))
  else ret (PyFloat (result / 10)%float).

(** ** The operations *)

(** [async_update] (lines 96-158). *)
Definition async_update : M unit :=
  def_ (
    t <- _async_read_temp_from_register 231 ;;
    assign (set_attr_target_temperature (Some t)) ;;
    t <- _async_read_temp_from_register 0 ;;
    assign (set_attr_current_temperature (Some t)) ;;
    v <- _async_read_int16_from_register 15 ;;
    assign (set_attr_actual_air_speed (Some v)) ;;
    v <- _async_read_int16_from_register 1 ;;
    assign (set_water_temperature (Some v)) ;;
    prg <- _async_read_int16_from_register 201 ;;
    (if negb (_is_set prg 0) && negb (_is_set prg 1) && negb (_is_set prg 2)
     then assign (set_attr_fan_mode (nth_error _attr_fan_modes 0))
     else if _is_set prg 0 && negb (_is_set prg 1) && negb (_is_set prg 2)
     then assign (set_attr_fan_mode (nth_error _attr_fan_modes 1))
     else if negb (_is_set prg 0) && _is_set prg 1 && negb (_is_set prg 2)
     then assign (set_attr_fan_mode (nth_error _attr_fan_modes 2))
     else if _is_set prg 0 && _is_set prg 1 && negb (_is_set prg 2)
     then assign (set_attr_fan_mode (nth_error _attr_fan_modes 3))
     else (_LOGGER_error "Received invalid PRG" [] ;; return_)) ;;
    season <- _async_read_int16_from_register 233 ;;
    (if season =? 5 then assign (set_attr_hvac_mode (Some COOL))
     else if (season =? 3) || (season =? 0)
     then assign (set_attr_hvac_mode (Some HEAT))
     else (_LOGGER_error "Received invalid season value: %s" [season] ;;
           return_)) ;;
    if _is_set prg 7 then assign (set_attr_hvac_mode (Some OFF))
    else ret tt).

(** [async_set_hvac_mode] (lines 168-185). *)
Definition async_set_hvac_mode (hvac_mode : HVACMode) : M unit :=
  def_ (
    curr_prg <- _async_read_int16_from_register 201 ;;
    (if HVACMode_eqb hvac_mode OFF
     then (_async_write_int16_to_register 201
             (Z.lor curr_prg (Z.shiftl 1 7)) ;;
           return_)
     else ret tt) ;;
    season <-
      (if HVACMode_eqb hvac_mode COOL then ret 5
       else if HVACMode_eqb hvac_mode HEAT then ret 0
       else (_LOGGER_error "Modbus error setting hvac mode" [] ;; return_)) ;;
    _async_write_int16_to_register 201
      (Z.land curr_prg (Z.lnot (Z.shiftl 1 7))) ;;
    _async_write_int16_to_register 233 season ;;
    ret tt).

(** [async_set_temperature] (lines 187-196).  The argument is what
    [kwargs.get(ATTR_TEMPERATURE)] answers: [None] when the call carries no
    temperature, the float the host passes otherwise. *)
Definition async_set_temperature (temperature : option float) : M unit :=
  def_ (
    match temperature with
    | None => _LOGGER_error "Received invalid temperature" [] ;; return_
    | Some target_temperature =>
        raw <- lift (int_ (target_temperature * 10)%float) ;;
        ok <- _async_write_int16_to_register 231 raw ;;
        if ok
        then assign (set_attr_target_temperature
                       (Some (PyFloat target_temperature)))
        else _LOGGER_error
               "Modbus error setting target temperature to Flexit" []
    end).

(** The value written for the fan mode of index [i] over the flags
    [curr_prg]: the [if]/[elif] chain of [async_set_fan_mode]. *)
Definition fan_mode_prg (i curr_prg : Z) : Z :=
  if i =? 0 then Z.land curr_prg (Z.lnot 7)
  else if i =? 1 then Z.lor (Z.land curr_prg (Z.lnot 7)) 1
  else if i =? 2 then Z.lor (Z.land curr_prg (Z.lnot 7)) 2
  else Z.lor (Z.land curr_prg (Z.lnot 7)) 3.

(** [async_set_fan_mode] (lines 198-218).  [self.fan_modes] is
    [_attr_fan_modes], truthy when not empty. *)
Definition async_set_fan_mode (fan_mode : string) : M unit :=
  def_ (
    i <- lift (index _attr_fan_modes fan_mode) ;;
    curr_prg <- _async_read_int16_from_register 201 ;;
    let curr_prg := fan_mode_prg i curr_prg in
    ok <- (match _attr_fan_modes with
           | [] => ret false
           | _ :: _ => _async_write_int16_to_register 201 curr_prg
           end) ;;
    if ok then assign (set_attr_fan_mode (Some fan_mode))
    else _LOGGER_error "Modbus error setting fan mode" []).

(** ** Reading the runs *)

(** The integer [_async_read_int16_from_register] answers for a hub reply. *)
Definition reg_value (r : option Z) : Z :=
  match r with
  | Some v => v
  | None => -1
  end.

(** The events of one register read with reply [r]. *)
Definition read_events (slave register : Z) (r : option Z) : list event :=
  PbRead slave register r ::
  match r with
  | None => [LogError "Error reading value from Flexit modbus adapter" []]
  | Some _ => []
  end.

(** What [_async_read_temp_from_register] makes of the integer read. *)
Definition temp_of_raw (raw : Z) : exn + pynum :=
  match float_ raw with
  | inl e => inl e
  | inr x =>
      inr (if negb (float_truthy x) then PyInt (-1)
           else PyFloat (x / 10)%float)
  end.

(** Bits 0, 1 and 2 of the flags, bit 0 first. *)
Definition fan_pattern (prg : Z) : bool * bool * bool :=
  (_is_set prg 0, _is_set prg 1, _is_set prg 2).

(** The four patterns the refresh recognizes, in the order of
    [_attr_fan_modes]. *)
Definition recognized_patterns : list (bool * bool * bool) :=
  [(false, false, false); (true, false, false);
   (false, true, false); (true, true, false)].


(** ** The runs of [async_update] *)

(** The index in [_attr_fan_modes] that bits 0 and 1 of the flags select. *)
Definition fan_index (prg : Z) : nat :=
  match _is_set prg 0, _is_set prg 1 with
  | false, false => 0
  | true, false => 1
  | false, true => 2
  | true, true => 3
  end.

(** What the fan-mode chain of [async_update] assigns, [None] when it logs
    the invalid PRG. *)
Definition fan_of_prg (prg : Z) : option string :=
  if _is_set prg 2 then None else nth_error _attr_fan_modes (fan_index prg).

(** What the season chain of [async_update] assigns, [None] when it logs the
    invalid season. *)
Definition hvac_of_season (season : Z) : option HVACMode :=
  if season =? 5 then Some COOL
  else if (season =? 3) || (season =? 0) then Some HEAT
  else None.

(** The entity once the four sensor attributes are assigned. *)
Definition sensed (t1 t2 : pynum) (v3 v4 : Z) (f : Fancoil) : Fancoil :=
  set_water_temperature (Some v4)
    (set_attr_actual_air_speed (Some v3)
       (set_attr_current_temperature (Some t2)
          (set_attr_target_temperature (Some t1) f))).

(** The events of the five reads up to the flags. *)
Definition sensed_log (slave : Z) (r1 r2 r3 r4 r5 : option Z) : list event :=
  read_events slave 231 r1 ++ read_events slave 0 r2 ++
  read_events slave 15 r3 ++ read_events slave 1 r4 ++
  read_events slave 201 r5.

(** The five ways a refresh of the entity [f] can go, by the hub's replies
    [r1] to [r6]: the outcome, the entity and the events it leaves. *)
Inductive update_run (f : Fancoil) :
  outcome unit -> Fancoil -> list event -> Prop :=
| UpdRaiseTarget (r1 : option Z) (e : exn) :
    temp_of_raw (reg_value r1) = inl e ->
    update_run f (Raised e) f (read_events (_slave f) 231 r1)
| UpdRaiseCurrent (r1 r2 : option Z) (t1 : pynum) (e : exn) :
    temp_of_raw (reg_value r1) = inr t1 ->
    temp_of_raw (reg_value r2) = inl e ->
    update_run f (Raised e) (set_attr_target_temperature (Some t1) f)
      (read_events (_slave f) 231 r1 ++ read_events (_slave f) 0 r2)
| UpdInvalidPrg (r1 r2 r3 r4 r5 : option Z) (t1 t2 : pynum) :
    temp_of_raw (reg_value r1) = inr t1 ->
    temp_of_raw (reg_value r2) = inr t2 ->
    fan_of_prg (reg_value r5) = None ->
    update_run f (Value tt)
      (sensed t1 t2 (reg_value r3) (reg_value r4) f)
      (sensed_log (_slave f) r1 r2 r3 r4 r5 ++
       [LogError "Received invalid PRG" []])
| UpdInvalidSeason (r1 r2 r3 r4 r5 r6 : option Z) (t1 t2 : pynum)
    (fm : string) :
    temp_of_raw (reg_value r1) = inr t1 ->
    temp_of_raw (reg_value r2) = inr t2 ->
    fan_of_prg (reg_value r5) = Some fm ->
    hvac_of_season (reg_value r6) = None ->
    update_run f (Value tt)
      (set_attr_fan_mode (Some fm)
         (sensed t1 t2 (reg_value r3) (reg_value r4) f))
      (sensed_log (_slave f) r1 r2 r3 r4 r5 ++
       read_events (_slave f) 233 r6 ++
       [LogError "Received invalid season value: %s" [reg_value r6]])
| UpdDone (r1 r2 r3 r4 r5 r6 : option Z) (t1 t2 : pynum)
    (fm : string) (hv : HVACMode) :
    temp_of_raw (reg_value r1) = inr t1 ->
    temp_of_raw (reg_value r2) = inr t2 ->
    fan_of_prg (reg_value r5) = Some fm ->
    hvac_of_season (reg_value r6) = Some hv ->
    update_run f (Value tt)
      (set_attr_hvac_mode
         (Some (if _is_set (reg_value r5) 7 then OFF else hv))
         (set_attr_fan_mode (Some fm)
            (sensed t1 t2 (reg_value r3) (reg_value r4) f)))
      (sensed_log (_slave f) r1 r2 r3 r4 r5 ++
       read_events (_slave f) 233 r6).

(** [p] holds of the [n] integers from [lo] on. *)
Fixpoint all_from (n : nat) (lo : Z) (p : Z -> bool) : bool :=
  match n with
  | O => true
  | S k => p lo && all_from k (lo + 1) p
  end.

(** The float with one decimal place that stands for [k] tenths:
    [float(k) / 10.0], the binary64 nearest to k/10, which is also what the
    refresh makes of the raw value [k]. *)
Definition tenths (k : Z) : exn + float :=
  match float_ k with
  | inr x => inr (x / 10)%float
  | inl e => inl e
  end.

(** ** Reasoning about runs *)

Lemma read_int16_run (register : Z) (w : world) :
  _async_read_int16_from_register register w =
  let p := async_pb_call_read (hub w) (_slave (self w)) register in
  (Value (reg_value (fst p)),
   mkWorld (self w) (snd p)
     (log w ++ read_events (_slave (self w)) register (fst p))).
Proof.
  unfold _async_read_int16_from_register, bind, hub_read; simpl.
  destruct (async_pb_call_read _ _ _) as [[v|] h']; cbn;
    unfold emit; cbn; rewrite <- ?app_assoc; reflexivity.
Qed.

Lemma read_temp_run (register : Z) (w : world) :
  _async_read_temp_from_register register w =
  let p := async_pb_call_read (hub w) (_slave (self w)) register in
  (match temp_of_raw (reg_value (fst p)) with
   | inr t => Value t
   | inl e => Raised e
   end,
   mkWorld (self w) (snd p)
     (log w ++ read_events (_slave (self w)) register (fst p))).
Proof.
  unfold _async_read_temp_from_register, bind.
  rewrite read_int16_run. cbv zeta. unfold temp_of_raw, lift.
  destruct (float_ _) as [e|x]; cbn; [reflexivity|].
  destruct (negb (float_truthy x)); reflexivity.
Qed.

Lemma in_read_events (e : event) (slave register : Z) (r : option Z) :
  In e (read_events slave register r) <->
  e = PbRead slave register r \/
  (r = None /\
   e = LogError "Error reading value from Flexit modbus adapter" []).
Proof.
  unfold read_events. destruct r; cbn [In]; split; intros H.
  - destruct H as [H|[]]; auto.
  - destruct H as [H|[H _]]; [auto | discriminate].
  - destruct H as [H|[H|[]]]; auto.
  - destruct H as [H|[_ H]]; auto.
Qed.

(** Unfold the monad's plumbing and the attribute updates. *)
Ltac plumb :=
  cbv beta iota zeta delta
    [bind assign ret return_ lift raise _LOGGER_error emit def_];
  cbn [self hub log fst snd _slave _attr_target_temperature
       _attr_current_temperature _attr_actual_air_speed _water_temperature
       _attr_fan_mode _attr_hvac_mode
       set_attr_target_temperature set_attr_current_temperature
       set_attr_actual_air_speed set_water_temperature set_attr_fan_mode
       set_attr_hvac_mode].

(** Run the register read the goal is waiting on, naming the hub's reply. *)
Ltac step_read :=
  match goal with
  | |- context [_async_read_temp_from_register ?r ?w] =>
      rewrite (read_temp_run r w);
      let rr := fresh "r" in let hh := fresh "h" in
      let tt := fresh "t" in let ee := fresh "e" in
      let E := fresh "Et" in
      destruct (async_pb_call_read _ _ r) as [rr hh];
      cbv zeta; cbn [fst snd];
      destruct (temp_of_raw (reg_value rr)) as [ee|tt] eqn:E
  | |- context [_async_read_int16_from_register ?r ?w] =>
      rewrite (read_int16_run r w);
      let rr := fresh "r" in let hh := fresh "h" in
      destruct (async_pb_call_read _ _ r) as [rr hh]; cbv zeta; cbn [fst snd]
  end.

(** Split on the tests of the goal's head conditional. *)
Ltac step_if :=
  match goal with
  | |- context [_is_set ?p ?n] =>
      let B := fresh "B" in destruct (_is_set p n) eqn:B; cbn [negb andb orb]
  | |- context [Z.eqb ?a ?b] =>
      let B := fresh "Q" in destruct (Z.eqb a b) eqn:B; cbn [negb andb orb]
  end.

Ltac run_update :=
  unfold call, async_update; plumb;
  repeat (step_read; plumb);
  repeat (step_if; plumb);
  repeat (step_read; plumb);
  repeat (step_if; plumb).

(** Name the outcome and the world of the run in the hypothesis. *)
Ltac take_run :=
  let H := fresh in
  intros H; apply pair_equal_spec in H; destruct H as [<- <-];
  cbv beta iota delta [self log].

(** Take apart the memberships in a log that the context states. *)
Ltac log_facts :=
  repeat match goal with
  | H : In _ (_ ++ _) |- _ => apply in_app_or in H
  | H : In _ (read_events _ _ _) |- _ => apply in_read_events in H
  | H : In _ (_ :: _) |- _ => destruct H
  | H : In _ [] |- _ => destruct H
  | H : _ \/ _ |- _ => destruct H
  | H : _ /\ _ |- _ => destruct H
  | H : False |- _ => destruct H
  | H : PbRead _ _ _ = _ |- _ =>
      first [discriminate H | injection H as ?; subst]
  | H : LogError _ _ = _ |- _ =>
      first [discriminate H | injection H as ?; subst]
  | H : PbWrite _ _ _ _ = _ |- _ =>
      first [discriminate H | injection H as ?; subst]
  | H : (_ =? _) = true |- _ => apply Z.eqb_eq in H
  | H : (_ =? _) = false |- _ => apply Z.eqb_neq in H
  end.

(** Find an event in a log. *)
Ltac show_in_log :=
  match goal with
  | |- In _ (_ ++ _) =>
      apply in_or_app; ((left; show_in_log) || (right; show_in_log))
  | |- In _ (read_events _ _ _) => apply in_read_events; left; reflexivity
  | |- In _ (_ :: _) => (left; reflexivity) || (right; show_in_log)
  end.

Lemma update_run_eq (f : Fancoil) (o : outcome unit) (f1 f2 : Fancoil)
    (l1 l2 : list event) :
  update_run f o f1 l1 -> f2 = f1 -> l2 = l1 -> update_run f o f2 l2.
Proof. intros H -> ->; exact H. Qed.

Ltac use_tests :=
  unfold fan_of_prg, fan_index, hvac_of_season;
  repeat match goal with
         | B : _is_set _ _ = _ |- _ => rewrite B
         | Q : (_ =? _) = _ |- _ => rewrite Q
         end;
  cbn [orb].

Ltac same_log := unfold sensed_log; rewrite <- ?app_assoc; reflexivity.

(** Every refresh is one of the five runs. *)
Lemma async_update_runs (f : Fancoil) (h : Hub) (o : outcome unit)
    (w' : world) :
  call async_update f h = (o, w') -> update_run f o (self w') (log w').
Proof.
  run_update; take_run.
  1: now apply UpdRaiseTarget.
  1: now apply UpdRaiseCurrent.
  all: lazymatch goal with
    | H1 : temp_of_raw (reg_value ?a) = inr ?t1,
      H2 : temp_of_raw (reg_value ?b) = inr ?t2
      |- update_run _ _ _
           ((((((_ ++ read_events _ 231 ?a) ++ read_events _ 0 ?b) ++
               read_events _ 15 ?c) ++ read_events _ 1 ?d) ++
             read_events _ 201 ?e) ++ [LogError "Received invalid PRG" []]) =>
        eapply update_run_eq;
        [ apply (UpdInvalidPrg f a b c d e t1 t2 H1 H2); use_tests; reflexivity
        | reflexivity | same_log ]
    | H1 : temp_of_raw (reg_value ?a) = inr ?t1,
      H2 : temp_of_raw (reg_value ?b) = inr ?t2
      |- update_run _ _ _
           (((((((_ ++ read_events _ 231 ?a) ++ read_events _ 0 ?b) ++
                read_events _ 15 ?c) ++ read_events _ 1 ?d) ++
              read_events _ 201 ?e) ++ read_events _ 233 ?g) ++
            [LogError "Received invalid season value: %s" _]) =>
        eapply update_run_eq;
        [ eapply (UpdInvalidSeason f a b c d e g t1 t2 _ H1 H2);
          use_tests; reflexivity
        | reflexivity | same_log ]
    | H1 : temp_of_raw (reg_value ?a) = inr ?t1,
      H2 : temp_of_raw (reg_value ?b) = inr ?t2
      |- update_run _ _ _
           ((((((_ ++ read_events _ 231 ?a) ++ read_events _ 0 ?b) ++
               read_events _ 15 ?c) ++ read_events _ 1 ?d) ++
             read_events _ 201 ?e) ++ read_events _ 233 ?g) =>
        eapply update_run_eq;
        [ eapply (UpdDone f a b c d e g t1 t2 _ _ H1 H2);
          use_tests; reflexivity
        | use_tests; reflexivity | same_log ]
    end.
Qed.

(** Analyse a refresh through its five runs. *)
Ltac by_runs H w :=
  apply async_update_runs in H; destruct w as [? ? ?];
  cbn [self log] in *;
  inversion H as
    [ r1 e Ht1
    | r1 r2 t1 e Ht1 Ht2
    | r1 r2 r3 r4 r5 t1 t2 Ht1 Ht2 Hfan
    | r1 r2 r3 r4 r5 r6 t1 t2 fm Ht1 Ht2 Hfan Hseason
    | r1 r2 r3 r4 r5 r6 t1 t2 fm hv Ht1 Ht2 Hfan Hseason ];
  subst; clear H;
  unfold sensed_log, sensed in *;
  cbn [_attr_target_temperature _attr_current_temperature
       _attr_actual_air_speed _water_temperature _attr_fan_mode
       _attr_hvac_mode set_attr_target_temperature
       set_attr_current_temperature set_attr_actual_air_speed
       set_water_temperature set_attr_fan_mode set_attr_hvac_mode].

Lemma fan_of_prg_none (prg : Z) :
  fan_of_prg prg = None <-> ~ In (fan_pattern prg) recognized_patterns.
Proof.
  unfold fan_of_prg, fan_index, fan_pattern, recognized_patterns.
  destruct (_is_set prg 0), (_is_set prg 1), (_is_set prg 2); cbn;
    split; intros H; try discriminate; try reflexivity;
    try (exfalso; apply H; tauto);
    intros G; repeat destruct G as [G|G]; try discriminate G; exact G.
Qed.

Lemma hvac_of_season_none (season : Z) :
  hvac_of_season season = None <-> ~ In season [0; 3; 5].
Proof.
  unfold hvac_of_season.
  destruct (Z.eqb_spec season 5), (Z.eqb_spec season 3),
    (Z.eqb_spec season 0); cbn; split; intros H;
    try discriminate; try reflexivity; try (exfalso; apply H; lia); lia.
Qed.


Lemma hvac_of_season_some (season : Z) (hv : HVACMode) :
  hvac_of_season season = Some hv ->
  (season = 5 /\ hv = COOL) \/ ((season = 0 \/ season = 3) /\ hv = HEAT).
Proof.
  unfold hvac_of_season.
  destruct (Z.eqb_spec season 5), (Z.eqb_spec season 3),
    (Z.eqb_spec season 0); cbn; intros H; inversion H; subst; lia || tauto.
Qed.


Lemma all_from_spec (n : nat) (lo : Z) (p : Z -> bool) :
  all_from n lo p = true ->
  forall z, lo <= z < lo + Z.of_nat n -> p z = true.
Proof.
  revert lo; induction n as [|n IH]; intros lo H z Hz.
  - cbn in Hz; lia.
  - cbn [all_from] in H. apply andb_true_iff in H as [H0 H1].
    destruct (Z.eq_dec z lo) as [->|Hne]; [exact H0|].
    apply (IH (lo + 1) H1). lia.
Qed.

Lemma temp_of_raw_zero : temp_of_raw 0 = inr (PyInt (-1)).
Proof. reflexivity. Qed.

(** Over the values a 16-bit register can hold, signed or unsigned, only
    raw 0 is falsy as a float. *)
Lemma temp_of_raw_nonzero (raw : Z) :
  -32768 <= raw <= 65535 -> raw <> 0 ->
  exists x, float_ raw = inr x /\ temp_of_raw raw = inr (PyFloat (x / 10)).
Proof.
  intros Hr Hnz.
  assert (Hall : all_from (Z.to_nat 98304) (-32768)
                   (fun z => (z =? 0) ||
                             match float_ z with
                             | inr x => float_truthy x
                             | inl _ => false
                             end) = true) by (vm_compute; reflexivity).
  pose proof (all_from_spec _ _ _ Hall raw ltac:(lia)) as Hp.
  cbv beta in Hp. apply orb_true_iff in Hp as [Hp|Hp].
  - apply Z.eqb_eq in Hp. contradiction.
  - unfold temp_of_raw. destruct (float_ raw) as [e|x]; [discriminate|].
    exists x. rewrite Hp. split; reflexivity.
Qed.

Lemma write_run (register value : Z) (w : world) :
  _async_write_int16_to_register register value w =
  let p := async_pb_call_write (hub w) (_slave (self w)) register value in
  (Value (fst p),
   mkWorld (self w) (snd p)
     (log w ++ [PbWrite (_slave (self w)) register value (fst p)])).
Proof.
  unfold _async_write_int16_to_register.
  destruct (async_pb_call_write _ _ _ _) as [ok h']; reflexivity.
Qed.

(** Run the register write the goal is waiting on, naming the hub's reply. *)
Ltac step_write :=
  match goal with
  | |- context [_async_write_int16_to_register ?r ?v ?w] =>
      rewrite (write_run r v w);
      let ok := fresh "ok" in let hh := fresh "h" in
      destruct (async_pb_call_write _ _ r v) as [ok hh];
      cbv zeta; cbn [fst snd]
  end.

Lemma is_set_testbit (x n : Z) : 0 <= n -> _is_set x n = Z.testbit x n.
Proof.
  intros Hn. unfold _is_set. rewrite Z.shiftl_1_l.
  destruct (Z.testbit x n) eqn:E.
  - apply negb_true_iff, Z.eqb_neq. intros H0.
    assert (H1 : Z.testbit (Z.land x (2 ^ n)) n = true)
      by (rewrite Z.land_spec, E, Z.pow2_bits_true; auto).
    rewrite H0, Z.bits_0 in H1. discriminate.
  - apply negb_false_iff, Z.eqb_eq. apply Z.bits_inj'. intros m Hm.
    rewrite Z.land_spec, Z.bits_0.
    destruct (Z.eq_dec n m) as [<-|Hne].
    + now rewrite E.
    + rewrite (Z.pow2_bits_false n m) by lia. apply andb_false_r.
Qed.

Lemma index_fan_modes (i : nat) (mode : string) :
  nth_error _attr_fan_modes i = Some mode ->
  index _attr_fan_modes mode = inr (Z.of_nat i).
Proof.
  destruct i as [|[|[|[|i]]]]; cbn; intros H; inversion H; try reflexivity.
  destruct i; discriminate.
Qed.

Lemma index_missing (l : list string) (x : string) :
  ~ In x l -> index l x = inl ValueError.
Proof.
  induction l as [|y l IH]; intros Hn; cbn [index]; [reflexivity|].
  destruct (String.eqb_spec y x) as [->|Hne].
  - exfalso. apply Hn. now left.
  - rewrite IH; [reflexivity|]. intros Hin. apply Hn. now right.
Qed.

Lemma fan_of_prg_nth (i : nat) (prg : Z) :
  nth_error recognized_patterns i = Some (fan_pattern prg) ->
  fan_of_prg prg = nth_error _attr_fan_modes i.
Proof.
  unfold fan_pattern, fan_of_prg, fan_index.
  destruct i as [|[|[|[|i]]]]; cbn [nth_error recognized_patterns];
    intros H; inversion H as [[B0 B1 B2]]; try reflexivity.
  destruct i; discriminate.
Qed.

Lemma small_bits_high (k n : Z) :
  0 <= k <= 7 -> 3 <= n -> Z.testbit k n = false.
Proof.
  intros Hk Hn. destruct (Z.eq_dec k 0) as [->|Hk0]; [apply Z.bits_0|].
  apply Z.bits_above_log2; [lia|].
  apply Z.log2_lt_pow2; [lia|].
  apply Z.lt_le_trans with (2 ^ 3); [cbn; lia|].
  apply Z.pow_le_mono_r; lia.
Qed.

Lemma fan_mode_prg_high (i : nat) (p n : Z) :
  3 <= n -> Z.testbit (fan_mode_prg (Z.of_nat i) p) n = Z.testbit p n.
Proof.
  intros Hn.
  assert (Hmask : Z.testbit (Z.land p (Z.lnot 7)) n = Z.testbit p n).
  { rewrite Z.land_spec, Z.lnot_spec by lia.
    rewrite (small_bits_high 7 n) by lia. apply andb_true_r. }
  unfold fan_mode_prg.
  repeat match goal with
         | |- context [if ?c then _ else _] => destruct c
         end;
    rewrite ?Z.lor_spec, Hmask, ?(small_bits_high 1 n),
      ?(small_bits_high 2 n), ?(small_bits_high 3 n) by lia;
    rewrite ?orb_false_r; reflexivity.
Qed.

Lemma fan_mode_prg_pattern (i : nat) (p : Z) :
  (i < 4)%nat ->
  nth_error recognized_patterns i =
  Some (fan_pattern (fan_mode_prg (Z.of_nat i) p)).
Proof.
  intros Hi. unfold fan_pattern. rewrite !is_set_testbit by lia.
  assert (Hlow : forall n, 0 <= n < 3 ->
                   Z.testbit (Z.land p (Z.lnot 7)) n = false).
  { intros n Hn. rewrite Z.land_spec, Z.lnot_spec by lia.
    assert (Z.testbit 7 n = true)
      by (assert (n = 0 \/ n = 1 \/ n = 2) as [->|[->| ->]] by lia;
          reflexivity).
    rewrite H. apply andb_false_r. }
  destruct i as [|[|[|[|i]]]]; [| | | |lia];
    cbn [nth_error recognized_patterns]; unfold fan_mode_prg;
    cbn [Z.of_nat Pos.of_succ_nat Pos.succ Z.eqb Pos.eqb];
    rewrite ?Z.lor_spec, !Hlow by lia; reflexivity.
Qed.

Lemma fan_of_prg_index (prg : Z) (fm : string) :
  fan_of_prg prg = Some fm ->
  nth_error recognized_patterns (fan_index prg) = Some (fan_pattern prg) /\
  nth_error _attr_fan_modes (fan_index prg) = Some fm.
Proof.
  unfold fan_of_prg, fan_index, fan_pattern.
  destruct (_is_set prg 0), (_is_set prg 1), (_is_set prg 2); cbn;
    intros H; try discriminate; split; try reflexivity; exact H.
Qed.

(** ** Properties of the refresh *)

(** C1 (as amended): a refresh that meets an unrecognized flags pattern is
    abandoned before the season is read, with [fan_mode] and [hvac_mode] as
    they were; one that meets a season outside 0, 3, 5 is abandoned with
    [hvac_mode] as it was and with [fan_mode] already the mode its flags
    decode to; in both the four sensor attributes already hold the values
    this refresh read. *)
Theorem async_update_abort_frame (f : Fancoil) (h : Hub) (o : outcome unit)
    (w' : world) :
  call async_update f h = (o, w') ->
  (forall r, In (PbRead (_slave f) 201 r) (log w') ->
     ~ In (fan_pattern (reg_value r)) recognized_patterns ->
     o = Value tt /\
     In (LogError "Received invalid PRG" []) (log w') /\
     (forall q, ~ In (PbRead (_slave f) 233 q) (log w')) /\
     _attr_fan_mode (self w') = _attr_fan_mode f /\
     _attr_hvac_mode (self w') = _attr_hvac_mode f) /\
  (forall q, In (PbRead (_slave f) 233 q) (log w') ->
     ~ In (reg_value q) [0; 3; 5] ->
     o = Value tt /\
     In (LogError "Received invalid season value: %s" [reg_value q])
       (log w') /\
     _attr_hvac_mode (self w') = _attr_hvac_mode f /\
     exists r i,
       In (PbRead (_slave f) 201 r) (log w') /\
       nth_error recognized_patterns i = Some (fan_pattern (reg_value r)) /\
       _attr_fan_mode (self w') = nth_error _attr_fan_modes i /\
       _attr_fan_mode (self w') <> None) /\
  (forall r, In (PbRead (_slave f) 201 r) (log w') ->
     exists r1 r2 r3 r4 t1 t2,
       In (PbRead (_slave f) 231 r1) (log w') /\
       In (PbRead (_slave f) 0 r2) (log w') /\
       In (PbRead (_slave f) 15 r3) (log w') /\
       In (PbRead (_slave f) 1 r4) (log w') /\
       temp_of_raw (reg_value r1) = inr t1 /\
       temp_of_raw (reg_value r2) = inr t2 /\
       _attr_target_temperature (self w') = Some t1 /\
       _attr_current_temperature (self w') = Some t2 /\
       _attr_actual_air_speed (self w') = Some (reg_value r3) /\
       _water_temperature (self w') = Some (reg_value r4)).
Proof.
  intros H; by_runs H w'; (split; [|split]).
  all: try (intros q Hq; log_facts; fail).
  all: try (intros q Hq Hbad; log_facts;
            try apply fan_of_prg_none in Hbad;
            try apply hvac_of_season_none in Hbad; congruence).
  all: try (intros q Hq Hbad; log_facts;
            repeat split; try reflexivity; try show_in_log;
            intros q' Hq'; log_facts; fail).
  all: try (intros q Hq Hbad; log_facts;
            apply fan_of_prg_index in Hfan as [Hpat Hmode];
            (split; [reflexivity|]); (split; [show_in_log|]);
            (split; [reflexivity|]);
            exists r5, (fan_index (reg_value r5));
            (split; [show_in_log|]); (split; [exact Hpat|]);
            rewrite Hmode; split; [reflexivity | discriminate]).
  all: intros q Hq;
    match goal with
    | H1 : temp_of_raw (reg_value ?a) = inr ?t1,
      H2 : temp_of_raw (reg_value ?b) = inr ?t2
      |- context [read_events _ 231 ?a ++ read_events _ 0 ?b ++
                  read_events _ 15 ?c ++ read_events _ 1 ?d ++ _] =>
        exists a, b, c, d, t1, t2
    end;
    repeat split; try assumption; show_in_log.
Qed.



(** C6: in a refresh, a temperature register (231 for the target, 0 for the
    current temperature) read as raw 0 stores the integer sentinel -1,
    unscaled, and read as any other 16-bit value stores that value divided
    by 10.0. *)
Theorem async_update_temperature_reads (f : Fancoil) (h : Hub)
    (o : outcome unit) (w' : world) (raw : Z) :
  call async_update f h = (o, w') ->
  (In (PbRead (_slave f) 231 (Some raw)) (log w') ->
     (raw = 0 -> _attr_target_temperature (self w') = Some (PyInt (-1))) /\
     (raw <> 0 -> -32768 <= raw <= 65535 ->
      exists x, float_ raw = inr x /\
        _attr_target_temperature (self w') = Some (PyFloat (x / 10)))) /\
  (In (PbRead (_slave f) 0 (Some raw)) (log w') ->
     (raw = 0 -> _attr_current_temperature (self w') = Some (PyInt (-1))) /\
     (raw <> 0 -> -32768 <= raw <= 65535 ->
      exists x, float_ raw = inr x /\
        _attr_current_temperature (self w') = Some (PyFloat (x / 10)))).
Proof.
  intros H; by_runs H w'; split; intros Hin; log_facts;
    cbn [reg_value] in *; split.
  all: try (intros ->; rewrite temp_of_raw_zero in *; congruence).
  all: intros Hnz Hr;
    destruct (temp_of_raw_nonzero raw Hr Hnz) as [x [Hx Hy]];
    first [congruence | exists x; split; [exact Hx | congruence]].
Qed.

(** C10: a register read the hub fails answers the integer -1, after an
    error record; for a temperature register that makes the float -0.1
    (binary64 [-0x1.999999999999ap-4]), exactly what a device value of raw -1
    makes, and a refresh stores it as the temperature; -1 has every bit set,
    so a failed flags read ends the refresh at the invalid PRG and a failed
    season read at the invalid season. *)
Theorem read_failure_is_minus_one :
  (forall register w h',
     async_pb_call_read (hub w) (_slave (self w)) register = (None, h') ->
     _async_read_int16_from_register register w =
     (Value (-1),
      mkWorld (self w) h'
        (log w ++
         [PbRead (_slave (self w)) register None;
          LogError "Error reading value from Flexit modbus adapter" []])) /\
     _async_read_temp_from_register register w =
     (Value (PyFloat (-0x1.999999999999ap-4)),
      mkWorld (self w) h'
        (log w ++
         [PbRead (_slave (self w)) register None;
          LogError "Error reading value from Flexit modbus adapter" []]))) /\
  (forall register w h',
     async_pb_call_read (hub w) (_slave (self w)) register =
     (Some (-1), h') ->
     _async_read_temp_from_register register w =
     (Value (PyFloat (-0x1.999999999999ap-4)),
      mkWorld (self w) h'
        (log w ++ [PbRead (_slave (self w)) register (Some (-1))]))) /\
  (forall n, 0 <= n -> _is_set (-1) n = true) /\
  (forall f h o w',
     call async_update f h = (o, w') ->
     (In (PbRead (_slave f) 201 None) (log w') ->
      o = Value tt /\
      In (LogError "Received invalid PRG" []) (log w') /\
      _attr_fan_mode (self w') = _attr_fan_mode f /\
      _attr_hvac_mode (self w') = _attr_hvac_mode f) /\
     (In (PbRead (_slave f) 233 None) (log w') ->
      o = Value tt /\
      In (LogError "Received invalid season value: %s" [-1]) (log w') /\
      _attr_hvac_mode (self w') = _attr_hvac_mode f) /\
     (In (PbRead (_slave f) 231 None) (log w') ->
      _attr_target_temperature (self w') =
      Some (PyFloat (-0x1.999999999999ap-4))) /\
     (In (PbRead (_slave f) 0 None) (log w') ->
      _attr_current_temperature (self w') =
      Some (PyFloat (-0x1.999999999999ap-4)))).
Proof.
  split; [|split; [|split]].
  - intros register w h' Hrd. split.
    + rewrite read_int16_run, Hrd. reflexivity.
    + rewrite read_temp_run, Hrd. reflexivity.
  - intros register w h' Hrd. rewrite read_temp_run, Hrd. reflexivity.
  - intros n Hn. unfold _is_set. rewrite Z.land_m1_l, Z.shiftl_1_l.
    apply negb_true_iff, Z.eqb_neq. apply Z.pow_nonzero; lia.
  - assert (Hm : temp_of_raw (-1) = inr (PyFloat (-0x1.999999999999ap-4)))
      by reflexivity.
    intros f h o w' H; by_runs H w'; (split; [|split; [|split]]);
      intros Hin; log_facts; cbn [reg_value] in *; try discriminate;
      try congruence.
    + repeat split. show_in_log.
    + repeat split. show_in_log.
Qed.

(** ** Properties of the commands *)

(** C3: for the fan mode at index [i] of [_attr_fan_modes] (Auto, Silent,
    Night, High) and the [i]-th of the patterns 000, 100, 010, 110 (bit 0
    first): a refresh that reads flags with that pattern assigns that mode;
    [async_set_fan_mode] of that mode writes, over any flags read, a value
    with exactly that pattern in bits 0-2 and the bits above bit 2 as read;
    so a refresh that reads the written value assigns the mode again. *)
Theorem fan_mode_decode_encode (i : nat) (mode : string) :
  nth_error _attr_fan_modes i = Some mode ->
  (forall f h o w' r,
     call async_update f h = (o, w') ->
     In (PbRead (_slave f) 201 r) (log w') ->
     nth_error recognized_patterns i = Some (fan_pattern (reg_value r)) ->
     _attr_fan_mode (self w') = Some mode) /\
  (forall f h o w',
     call (async_set_fan_mode mode) f h = (o, w') ->
     exists r ok,
       let v := fan_mode_prg (Z.of_nat i) (reg_value r) in
       log w' =
       read_events (_slave f) 201 r ++
       PbWrite (_slave f) 201 v ok ::
       (if ok then [] else [LogError "Modbus error setting fan mode" []]) /\
       nth_error recognized_patterns i = Some (fan_pattern v) /\
       (forall n, 3 <= n -> Z.testbit v n = Z.testbit (reg_value r) n) /\
       (ok = true -> _attr_fan_mode (self w') = Some mode)) /\
  (forall f h o w' p,
     call async_update f h = (o, w') ->
     In (PbRead (_slave f) 201 (Some (fan_mode_prg (Z.of_nat i) p)))
       (log w') ->
     _attr_fan_mode (self w') = Some mode).
Proof.
  intros Hmode.
  assert (Hi : (i < 4)%nat)
    by (apply (nth_error_Some _attr_fan_modes i); rewrite Hmode;
        discriminate).
  assert (Hdec : forall f h o w' r,
             call async_update f h = (o, w') ->
             In (PbRead (_slave f) 201 r) (log w') ->
             nth_error recognized_patterns i =
             Some (fan_pattern (reg_value r)) ->
             _attr_fan_mode (self w') = Some mode).
  { intros f h o w' r H Hin Hpat. apply fan_of_prg_nth in Hpat.
    rewrite Hmode in Hpat. by_runs H w'; log_facts; congruence. }
  split; [exact Hdec|]. split.
  - intros f h o w'. unfold call, async_set_fan_mode.
    rewrite (index_fan_modes i mode Hmode). unfold _attr_fan_modes.
    plumb; step_read; plumb; step_write; plumb.
    destruct ok; take_run; exists r; [exists true | exists false];
      cbv zeta; (split; [now rewrite <- ?app_assoc|]);
      (split; [now apply fan_mode_prg_pattern|]);
      (split; [intros n Hn; now apply fan_mode_prg_high|]);
      intros Hok; [reflexivity | discriminate].
  - intros f h o w' p H Hin. apply (Hdec f h o w' _ H Hin).
    now apply fan_mode_prg_pattern.
Qed.

(** C5 (as amended): the value [async_set_temperature] writes to register
    231 is [int(v * 10)], the product truncated toward zero; for 21.5 it is
    215; and for the float [v] with one decimal place that stands for [k]
    tenths, [k] a signed 16-bit value, it is [k], which read back and
    divided by 10.0 is [v]. *)
Theorem set_temperature_raw_value (f : Fancoil) (h : Hub) (v : float)
    (x : Z) :
  int_ (v * 10) = inr x ->
  (exists (ok : bool) (h' : Hub),
     call (async_set_temperature (Some v)) f h =
     (Value tt,
      mkWorld
        (if ok then set_attr_target_temperature (Some (PyFloat v)) f else f)
        h'
        (PbWrite (_slave f) 231 x ok ::
         if ok then []
         else [LogError
                 "Modbus error setting target temperature to Flexit" []]))) /\
  (v = 21.5%float -> x = 215) /\
  (forall k, -32768 <= k <= 32767 -> tenths k = inr v -> x = k).
Proof.
  intros Hx. split; [|split].
  - unfold call, async_set_temperature. rewrite Hx.
    plumb; step_write; plumb.
    exists ok, h0. destruct ok; reflexivity.
  - intros ->. vm_compute in Hx. congruence.
  - intros k Hk Hv.
    assert (Hall : all_from (Z.to_nat 65536) (-32768)
                     (fun z =>
                        match tenths z with
                        | inr t =>
                            match int_ (t * 10) with
                            | inr y => y =? z
                            | inl _ => false
                            end
                        | inl _ => false
                        end) = true) by (vm_compute; reflexivity).
    pose proof (all_from_spec _ _ _ Hall k ltac:(lia)) as Hp.
    cbv beta in Hp. rewrite Hv, Hx in Hp. apply Z.eqb_eq in Hp. exact Hp.
Qed.



(** C9, at the input that breaks it: [async_set_fan_mode] with a string
    outside [_attr_fan_modes] raises [ValueError] out of [list.index], before
    any hub call and with nothing logged. *)
Theorem set_fan_mode_unknown_raises (f : Fancoil) (h : Hub) (mode : string) :
  ~ In mode _attr_fan_modes ->
  call (async_set_fan_mode mode) f h = (Raised ValueError, mkWorld f h []).
Proof.
  intros Hn. unfold call, async_set_fan_mode.
  rewrite (index_missing _ _ Hn). reflexivity.
Qed.

(** The sibling commands handle their invalid input: a call without a
    temperature is logged and returns. *)
Lemma set_temperature_missing_logs (f : Fancoil) (h : Hub) :
  call (async_set_temperature None) f h =
  (Value tt, mkWorld f h [LogError "Received invalid temperature" []]).
Proof. reflexivity. Qed.

(** An HVAC mode other than Off, Cool and Heat is logged after the read of
    the flags and returns without a write. *)
Lemma set_hvac_mode_unsupported_logs (f : Fancoil) (h : Hub)
    (mode : HVACMode) :
  mode <> OFF -> mode <> COOL -> mode <> HEAT ->
  exists r h',
    call (async_set_hvac_mode mode) f h =
    (Value tt,
     mkWorld f h'
       (read_events (_slave f) 201 r ++
        [LogError "Modbus error setting hvac mode" []])).
Proof.
  intros H1 H2 H3. unfold call, async_set_hvac_mode.
  destruct mode; try contradiction; cbn [HVACMode_eqb];
    plumb; step_read; plumb; eexists; eexists; reflexivity.
Qed.

(** ** Further properties of the refresh *)

Lemma read_addresses_app (l1 l2 : list event) :
  read_addresses (l1 ++ l2) = read_addresses l1 ++ read_addresses l2.
Proof.
  induction l1 as [|[s a r|s a v ok|m args] l1 IH]; cbn; now rewrite ?IH.
Qed.

Lemma writes_of_app (l1 l2 : list event) :
  writes_of (l1 ++ l2) = writes_of l1 ++ writes_of l2.
Proof.
  induction l1 as [|[s a r|s a v ok|m args] l1 IH]; cbn; now rewrite ?IH.
Qed.

Lemma errors_of_app (l1 l2 : list event) :
  errors_of (l1 ++ l2) = errors_of l1 ++ errors_of l2.
Proof.
  induction l1 as [|[s a r|s a v ok|m args] l1 IH]; cbn; now rewrite ?IH.
Qed.

Lemma read_addresses_read_events (slave register : Z) (r : option Z) :
  read_addresses (read_events slave register r) = [register].
Proof. destruct r; reflexivity. Qed.

Lemma writes_of_read_events (slave register : Z) (r : option Z) :
  writes_of (read_events slave register r) = [].
Proof. destruct r; reflexivity. Qed.

(** Compute the reads and the writes of a log of the shape the runs
    leave. *)
Ltac log_shape :=
  rewrite ?read_addresses_app, ?writes_of_app, ?read_addresses_read_events,
    ?writes_of_read_events;
  cbn [read_addresses writes_of app].

(** X1: a refresh only reads: it issues no write, and the registers it reads
    are an initial segment of 231, 0, 15, 1, 201, 233, in that order, each
    once, all on the entity's slave. *)
Theorem async_update_reads_in_order (f : Fancoil) (h : Hub)
    (o : outcome unit) (w' : world) :
  call async_update f h = (o, w') ->
  writes_of (log w') = [] /\
  (exists n, read_addresses (log w') = firstn n [231; 0; 15; 1; 201; 233]) /\
  (forall s a r, In (PbRead s a r) (log w') -> s = _slave f) /\
  _slave (self w') = _slave f.
Proof.
  intros H; by_runs H w'; (split; [|split; [|split]]);
    try (log_shape; reflexivity);
    try (intros s a r Hin; log_facts; reflexivity);
    try reflexivity.
  - exists 1%nat. now log_shape.
  - exists 2%nat. now log_shape.
  - exists 5%nat. now log_shape.
  - exists 6%nat. now log_shape.
  - exists 6%nat. now log_shape.
Qed.

(** X2: after a refresh that got as far as reading the flags, abandoned or
    not, [extra_state_attributes] reports the integers read from registers 1
    and 15 as they came, -1 for a read the hub failed. *)
Theorem extra_state_attributes_after_update (f : Fancoil) (h : Hub)
    (o : outcome unit) (w' : world) (r : option Z) :
  call async_update f h = (o, w') ->
  In (PbRead (_slave f) 201 r) (log w') ->
  exists r15 r1,
    In (PbRead (_slave f) 15 r15) (log w') /\
    In (PbRead (_slave f) 1 r1) (log w') /\
    extra_state_attributes (self w') =
    [("water_temperature"%string, Some (reg_value r1));
     ("fan_speed"%string, Some (reg_value r15))].
Proof.
  intros H Hin; by_runs H w'; log_facts;
    exists r3, r4; (split; [show_in_log|]); (split; [show_in_log|]);
    reflexivity.
Qed.

(** X3: [_is_set(x, n)] is bit [n] of [x] in two's complement, for every
    integer [x], negative ones included: it holds exactly when
    [x // 2**n] is odd. *)
Theorem is_set_is_testbit (x n : Z) :
  0 <= n ->
  _is_set x n = Z.testbit x n /\
  (_is_set x n = true <-> (x / 2 ^ n) mod 2 = 1).
Proof.
  intros Hn. split; [now apply is_set_testbit|].
  rewrite is_set_testbit by lia. rewrite Z.testbit_true by lia. reflexivity.
Qed.

(** ** Further properties of the commands *)

(** Run [async_set_hvac_mode] on the mode in the goal. *)
Ltac run_hvac :=
  unfold call, async_set_hvac_mode; cbn [HVACMode_eqb]; plumb;
  step_read; plumb; repeat (step_write; plumb).

Lemma clear_bit7 (p n : Z) :
  Z.testbit (Z.land p (Z.lnot (Z.shiftl 1 7))) n =
  if n =? 7 then false else Z.testbit p n.
Proof.
  destruct (Z.neg_nonneg_cases n) as [Hneg|Hpos].
  - rewrite !Z.testbit_neg_r by lia.
    destruct (Z.eqb_spec n 7); [lia | reflexivity].
  - rewrite Z.land_spec, Z.lnot_spec, Z.shiftl_1_l, Z.pow2_bits_eqb by lia.
    rewrite (Z.eqb_sym 7 n).
    destruct (n =? 7); [apply andb_false_r | apply andb_true_r].
Qed.

Lemma set_bit7 (p n : Z) :
  Z.testbit (Z.lor p (Z.shiftl 1 7)) n =
  if n =? 7 then true else Z.testbit p n.
Proof.
  destruct (Z.neg_nonneg_cases n) as [Hneg|Hpos].
  - rewrite !Z.testbit_neg_r by lia.
    destruct (Z.eqb_spec n 7); [lia | reflexivity].
  - rewrite Z.lor_spec, Z.shiftl_1_l, Z.pow2_bits_eqb by lia.
    rewrite (Z.eqb_sym 7 n).
    destruct (n =? 7); [apply orb_true_r | apply orb_false_r].
Qed.

(** X4: [async_set_hvac_mode] of Cool or Heat reads the flags and then
    issues two writes whatever the hub answers to the first: register 201
    with bit 7 of the flags read cleared and every other bit as read, then
    register 233 with 5 for Cool, 0 for Heat; it returns normally and leaves
    the entity's attributes as they were. *)
Theorem set_hvac_mode_on_writes (f : Fancoil) (h : Hub) (mode : HVACMode)
    (season : Z) :
  (mode = COOL /\ season = 5) \/ (mode = HEAT /\ season = 0) ->
  exists r ok1 ok2 h',
    let v := Z.land (reg_value r) (Z.lnot (Z.shiftl 1 7)) in
    fst (async_pb_call_read h (_slave f) 201) = r /\
    call (async_set_hvac_mode mode) f h =
    (Value tt,
     mkWorld f h'
       (read_events (_slave f) 201 r ++
        [PbWrite (_slave f) 201 v ok1; PbWrite (_slave f) 233 season ok2])) /\
    Z.testbit v 7 = false /\
    (forall n, n <> 7 -> Z.testbit v n = Z.testbit (reg_value r) n).
Proof.
  intros [[-> ->]|[-> ->]];
    unfold call, async_set_hvac_mode; cbn [HVACMode_eqb]; plumb;
    rewrite read_int16_run; cbv zeta; cbn [self hub log];
    destruct (async_pb_call_read h (_slave f) 201) as [r h0]; cbn [fst snd];
    plumb; repeat (step_write; plumb);
    exists r, ok, ok0, h2; cbv zeta;
    (split; [reflexivity|]);
    (split; [now rewrite <- !app_assoc|]);
    (split; [now rewrite clear_bit7|]);
    intros n Hn; rewrite clear_bit7;
    (destruct (Z.eqb_spec n 7); [contradiction | reflexivity]).
Qed.

(** X5: [async_set_hvac_mode] of any mode returns normally, reads register
    201 once and nothing else, writes only to registers 201 and 233, and
    never assigns an attribute of the entity: the cached [hvac_mode] changes
    only at the next refresh.  A mode other than Off, Cool and Heat is logged
    and writes nothing; for those three a failed write is not logged. *)
Theorem set_hvac_mode_frame (f : Fancoil) (h : Hub) (mode : HVACMode)
    (o : outcome unit) (w' : world) :
  call (async_set_hvac_mode mode) f h = (o, w') ->
  o = Value tt /\
  self w' = f /\
  read_addresses (log w') = [201] /\
  (forall a x, In (a, x) (writes_of (log w')) -> a = 201 \/ a = 233) /\
  (mode <> OFF -> mode <> COOL -> mode <> HEAT ->
   writes_of (log w') = [] /\
   In (LogError "Modbus error setting hvac mode" []) (log w')) /\
  (mode = OFF \/ mode = COOL \/ mode = HEAT ->
   forall msg args, In (LogError msg args) (log w') ->
     msg = "Error reading value from Flexit modbus adapter"%string).
Proof.
  destruct mode; run_hvac; take_run;
    (split; [reflexivity|]); (split; [reflexivity|]);
    (split; [now log_shape|]); (split; [|split]).
  all: try (log_shape; intros a x Hin; cbn [In] in Hin;
            intuition congruence).
  all: try (intros H1 H2 H3; congruence).
  all: try (intros Hm msg args Hin; log_facts; reflexivity).
  all: try (intros [Hm|[Hm|Hm]]; discriminate Hm).
  all: intros _ _ _; split; [now log_shape | show_in_log].
Qed.

Lemma fan_of_prg_ext (p q : Z) :
  (forall n, 0 <= n < 3 -> Z.testbit q n = Z.testbit p n) ->
  fan_of_prg q = fan_of_prg p.
Proof.
  intros H. unfold fan_of_prg, fan_index.
  rewrite !is_set_testbit by lia. now rewrite !H by lia.
Qed.

(** X6: what [async_set_hvac_mode] writes reads back as the mode: a
    refresh that reads the flags it wrote over [p] and the season it wrote
    (for Off, any valid season) ends with that [hvac_mode], and with the fan
    mode that bits 0-2 of [p] select. *)
Theorem hvac_mode_write_decodes (mode : HVACMode) (p v season : Z)
    (f : Fancoil) (h : Hub) (o : outcome unit) (w' : world) :
  (mode = OFF /\ v = Z.lor p (Z.shiftl 1 7) /\ In season [0; 3; 5]) \/
  (mode = COOL /\ v = Z.land p (Z.lnot (Z.shiftl 1 7)) /\ season = 5) \/
  (mode = HEAT /\ v = Z.land p (Z.lnot (Z.shiftl 1 7)) /\ season = 0) ->
  call async_update f h = (o, w') ->
  In (PbRead (_slave f) 201 (Some v)) (log w') ->
  In (PbRead (_slave f) 233 (Some season)) (log w') ->
  o = Value tt /\
  _attr_hvac_mode (self w') = Some mode /\
  _attr_fan_mode (self w') = fan_of_prg p /\
  _attr_fan_mode (self w') <> None.
Proof.
  intros Hmode H Hf201 Hs233.
  assert (Hfanv : fan_of_prg v = fan_of_prg p).
  { apply fan_of_prg_ext. intros n Hn.
    destruct Hmode as [[_ [-> _]]|[[_ [-> _]]|[_ [-> _]]]];
      rewrite ?set_bit7, ?clear_bit7;
      destruct (Z.eqb_spec n 7); try lia; reflexivity. }
  assert (Hbit : _is_set v 7 = if HVACMode_eqb mode OFF then true else false).
  { rewrite is_set_testbit by lia.
    destruct Hmode as [[-> [-> _]]|[[-> [-> _]]|[-> [-> _]]]];
      now rewrite ?set_bit7, ?clear_bit7. }
  destruct Hmode as [[-> [-> Hs]]|[[-> [-> ->]]|[-> [-> ->]]]];
    cbn [HVACMode_eqb] in Hbit;
    by_runs H w'; log_facts; subst; cbn [reg_value] in *;
    try (vm_compute in Hseason; discriminate Hseason);
    change (Z.shiftl 1 7) with 128 in *;
    rewrite Hbit, <- Hfanv, Hfan; vm_compute in Hseason;
    inversion Hseason; repeat split; discriminate.
Qed.

(** Run [async_set_fan_mode] on a mode of known index. *)
Ltac run_fan Hmode :=
  unfold call, async_set_fan_mode;
  rewrite (index_fan_modes _ _ Hmode); unfold _attr_fan_modes;
  plumb; step_read; plumb; step_write; plumb.

(** X7: [async_set_fan_mode] of a supported mode returns normally after
    one read of register 201 and one write to it, and touches no other
    register; only [fan_mode] can change among the attributes, and when the
    hub fails the write nothing changes and the error is logged. *)
Theorem set_fan_mode_frame (f : Fancoil) (h : Hub) (mode : string)
    (o : outcome unit) (w' : world) :
  In mode _attr_fan_modes ->
  call (async_set_fan_mode mode) f h = (o, w') ->
  o = Value tt /\
  read_addresses (log w') = [201] /\
  (exists x, writes_of (log w') = [(201, x)]) /\
  set_attr_fan_mode (_attr_fan_mode f) (self w') = f /\
  (forall s a x, In (PbWrite s a x false) (log w') ->
     self w' = f /\
     In (LogError "Modbus error setting fan mode" []) (log w')) /\
  (forall s a x, In (PbWrite s a x true) (log w') ->
     _attr_fan_mode (self w') = Some mode /\
     forall msg args, In (LogError msg args) (log w') ->
       msg = "Error reading value from Flexit modbus adapter"%string).
Proof.
  intros Hin. apply In_nth_error in Hin as [i Hmode].
  run_fan Hmode. destruct f as [sl tt ct sp wt fm hm].
  destruct ok; plumb; take_run; cbn [_attr_fan_mode];
    (split; [reflexivity|]); (split; [now log_shape|]);
    (split; [eexists; now log_shape|]); (split; [reflexivity|]); split;
    intros s a x Hw; log_facts.
  - split; [reflexivity|]. intros msg args Hl; log_facts; reflexivity.
  - split; [reflexivity | show_in_log].
Qed.

(** X8: the commands do not notice a failed read of the flags: they compute
    the value to write from the -1 the read helper answers.
    [async_set_fan_mode] of the mode at index [i] writes [i - 8] (every bit
    above bit 2 set, bit 7 among them), [async_set_hvac_mode] of Off writes
    -1, and of Cool or Heat writes -129 before the season. *)
Theorem commands_write_after_failed_read (f : Fancoil) (h h0 : Hub) :
  async_pb_call_read h (_slave f) 201 = (None, h0) ->
  (forall i mode, nth_error _attr_fan_modes i = Some mode ->
     writes_of (log (snd (call (async_set_fan_mode mode) f h))) =
     [(201, Z.of_nat i - 8)]) /\
  writes_of (log (snd (call (async_set_hvac_mode OFF) f h))) = [(201, -1)] /\
  writes_of (log (snd (call (async_set_hvac_mode COOL) f h))) =
  [(201, -129); (233, 5)] /\
  writes_of (log (snd (call (async_set_hvac_mode HEAT) f h))) =
  [(201, -129); (233, 0)].
Proof.
  intros Hrd. split; [|split; [|split]].
  - intros i mode Hmode.
    assert (Hi : (i < 4)%nat)
      by (apply (nth_error_Some _attr_fan_modes i); rewrite Hmode;
          discriminate).
    unfold call, async_set_fan_mode.
    rewrite (index_fan_modes _ _ Hmode). unfold _attr_fan_modes. plumb.
    rewrite read_int16_run; cbv zeta; cbn [self hub log]; rewrite Hrd;
      cbn [fst snd reg_value]; plumb; step_write; plumb.
    destruct i as [|[|[|[|i]]]]; [| | | |lia];
      destruct ok; plumb; cbn [snd log]; now log_shape.
  - unfold call, async_set_hvac_mode; cbn [HVACMode_eqb]; plumb.
    rewrite read_int16_run; cbv zeta; cbn [self hub log]; rewrite Hrd;
      cbn [fst snd reg_value]; plumb; step_write; plumb.
    cbn [snd log]. now log_shape.
  - unfold call, async_set_hvac_mode; cbn [HVACMode_eqb]; plumb.
    rewrite read_int16_run; cbv zeta; cbn [self hub log]; rewrite Hrd;
      cbn [fst snd reg_value]; plumb; repeat (step_write; plumb).
    cbn [snd log]. now log_shape.
  - unfold call, async_set_hvac_mode; cbn [HVACMode_eqb]; plumb.
    rewrite read_int16_run; cbv zeta; cbn [self hub log]; rewrite Hrd;
      cbn [fst snd reg_value]; plumb; repeat (step_write; plumb).
    cbn [snd log]. now log_shape.
Qed.

Lemma tenths_encode (k : Z) (v : float) :
  -32768 <= k <= 32767 -> tenths k = inr v -> int_ (v * 10) = inr k.
Proof.
  intros Hk Hv.
  assert (Hall : all_from (Z.to_nat 65536) (-32768)
                   (fun z =>
                      match tenths z with
                      | inr t =>
                          match int_ (t * 10) with
                          | inr y => y =? z
                          | inl _ => false
                          end
                      | inl _ => false
                      end) = true) by (vm_compute; reflexivity).
  pose proof (all_from_spec _ _ _ Hall k ltac:(lia)) as Hp. clear Hall.
  cbv beta in Hp. rewrite Hv in Hp.
  destruct (int_ (v * 10)) as [e|y]; [discriminate Hp|].
  apply Z.eqb_eq in Hp. now subst.
Qed.

Lemma temp_of_raw_tenths (k : Z) (v : float) :
  -32768 <= k <= 32767 -> tenths k = inr v ->
  temp_of_raw k = inr (if k =? 0 then PyInt (-1) else PyFloat v).
Proof.
  intros Hk Hv. destruct (Z.eqb_spec k 0) as [->|Hnz].
  - reflexivity.
  - destruct (temp_of_raw_nonzero k ltac:(lia) Hnz) as [x [Hx Ht]].
    unfold tenths in Hv. rewrite Hx in Hv. inversion Hv; subst. exact Ht.
Qed.

(** X9: for the float [v] with one decimal place that stands for [k]
    tenths, [k] a signed 16-bit value, [async_set_temperature] of [v] writes
    [k] to register 231 and nothing else, and a refresh that reads [k] back
    from register 231 stores [v] again, the value the command cached; except
    that 0.0 comes back as the integer -1. *)
Theorem set_temperature_then_refresh (k : Z) (v : float) :
  -32768 <= k <= 32767 ->
  tenths k = inr v ->
  (forall f h,
     writes_of (log (snd (call (async_set_temperature (Some v)) f h))) =
     [(231, k)]) /\
  (forall f h o w',
     call async_update f h = (o, w') ->
     In (PbRead (_slave f) 231 (Some k)) (log w') ->
     _attr_target_temperature (self w') =
     Some (if k =? 0 then PyInt (-1) else PyFloat v)).
Proof.
  intros Hk Hv. split.
  - intros f h. unfold call, async_set_temperature.
    rewrite (tenths_encode k v Hk Hv). plumb; step_write; plumb.
    destruct ok; plumb; cbn [snd log]; now log_shape.
  - intros f h o w' H Hin.
    pose proof (temp_of_raw_tenths k v Hk Hv) as Ht.
    by_runs H w'; log_facts; cbn [reg_value] in *; congruence.
Qed.

(** X10: [async_set_temperature] never reads a register and writes to no
    register but 231; of the attributes only [target_temperature] can
    change; called without a temperature it logs, issues no hub call and
    changes nothing. *)
Theorem set_temperature_frame (f : Fancoil) (h : Hub)
    (temperature : option float) (o : outcome unit) (w' : world) :
  call (async_set_temperature temperature) f h = (o, w') ->
  read_addresses (log w') = [] /\
  (forall a x, In (a, x) (writes_of (log w')) -> a = 231) /\
  set_attr_target_temperature (_attr_target_temperature f) (self w') = f /\
  (temperature = None ->
   o = Value tt /\ self w' = f /\ hub w' = h /\
   log w' = [LogError "Received invalid temperature" []]).
Proof.
  unfold call, async_set_temperature.
  destruct f as [sl tt ct sp wt fm hm].
  destruct temperature as [v|]; [destruct (int_ (v * 10)) as [e|raw]|];
    plumb; try (step_write; plumb; destruct ok; plumb); take_run;
    cbn [_attr_target_temperature];
    (split; [now log_shape|]);
    (split; [log_shape; intros a x Hin; cbn [In] in Hin;
             intuition congruence|]);
    (split; [reflexivity|]);
    intros Hn; try discriminate Hn; repeat split.
Qed.

Lemma SFeqb_refl_finite (x : spec_float) :
  x <> S754_nan -> SFeqb x x = true.
Proof.
  unfold SFeqb, SFcompare.
  destruct x as [s|s| |s m e]; intros Hx; try (now destruct s);
    try contradiction.
  destruct s; rewrite Z.compare_refl, Pos.compare_cont_refl; reflexivity.
Qed.

(** How [int] ends, by the class of the float. *)
Lemma int_classes (x : float) :
  match int_ x with
  | inl ValueError => is_nan x = true
  | inl OverflowError => is_nan x = false /\ is_infinity x = true
  | inr _ => is_finite x = true
  end.
Proof.
  unfold int_, is_finite, is_nan, is_infinity.
  rewrite !FloatAxioms.eqb_spec, abs_spec.
  change (Prim2SF infinity) with (S754_infinity false).
  destruct (Prim2SF x) as [s|s| |s m e]; cbn [SFabs];
    rewrite ?SFeqb_refl_finite by discriminate; try reflexivity;
    try (split; reflexivity);
    cbn [negb orb]; unfold SFeqb, SFcompare; reflexivity.
Qed.

(** X11: [async_set_temperature] raises exactly when ten times the value
    is not a finite float: [ValueError] for a NaN, [OverflowError] for an
    infinity, before any hub call and with nothing logged or changed; a
    finite product always gets its one write. *)
Theorem set_temperature_non_finite (f : Fancoil) (h : Hub) (v : float) :
  (is_nan (v * 10) = true ->
   call (async_set_temperature (Some v)) f h =
   (Raised ValueError, mkWorld f h [])) /\
  (is_infinity (v * 10) = true ->
   call (async_set_temperature (Some v)) f h =
   (Raised OverflowError, mkWorld f h [])) /\
  (is_finite (v * 10) = true ->
   fst (call (async_set_temperature (Some v)) f h) = Value tt /\
   exists x,
     writes_of (log (snd (call (async_set_temperature (Some v)) f h))) =
     [(231, x)]).
Proof.
  pose proof (int_classes (v * 10)) as Hc.
  unfold call, async_set_temperature, is_finite in *.
  destruct (int_ (v * 10)) as [[|]|x]; plumb.
  - rewrite Hc. repeat split; try reflexivity; try discriminate.
    intros Hi. assert (Hn : is_nan (v * 10) = true) by exact Hc.
    unfold is_infinity, is_nan in *.
    rewrite FloatAxioms.eqb_spec in Hn. rewrite FloatAxioms.eqb_spec, abs_spec in Hi.
    destruct (Prim2SF (v * 10)) as [s|s| |s m e]; cbn in Hn, Hi;
      try discriminate; try (destruct s; discriminate).
  - destruct Hc as [Hn Hi]. rewrite Hn, Hi.
    repeat split; try reflexivity; discriminate.
  - step_write; plumb. apply negb_true_iff, orb_false_iff in Hc as [Hn Hi].
    rewrite Hn, Hi. split; [discriminate|]. split; [discriminate|].
    intros _. destruct ok; plumb; cbn [fst snd log];
      (split; [reflexivity|]); exists x; now log_shape.
Qed.

(** X12: the temperature helper applies no sign conversion: for a 16-bit
    value the hub delivers, a positive integer gives a positive temperature
    (so an unsigned 65535 is 6553.5, not -0.1) and a negative integer a
    negative one. *)
Theorem read_temp_keeps_sign (register raw : Z) (w : world) (h' : Hub) :
  async_pb_call_read (hub w) (_slave (self w)) register = (Some raw, h') ->
  -32768 <= raw <= 65535 ->
  raw <> 0 ->
  exists t,
    fst (_async_read_temp_from_register register w) = Value (PyFloat t) /\
    (0 < raw -> (0 <? t)%float = true) /\
    (raw < 0 -> (t <? 0)%float = true) /\
    (raw = 65535 -> t = 6553.5%float).
Proof.
  intros Hrd Hr Hnz. rewrite read_temp_run, Hrd. cbn [fst snd reg_value].
  assert (Hall : all_from (Z.to_nat 98304) (-32768)
                   (fun z =>
                      (z =? 0) ||
                      match temp_of_raw z with
                      | inr (PyFloat t) =>
                          if 0 <? z then PrimFloat.ltb 0 t
                          else PrimFloat.ltb t 0
                      | _ => false
                      end) = true) by (vm_compute; reflexivity).
  pose proof (all_from_spec _ _ _ Hall raw ltac:(lia)) as Hp. clear Hall.
  cbv beta in Hp. apply orb_true_iff in Hp as [Hp|Hp];
    [apply Z.eqb_eq in Hp; contradiction|].
  destruct (temp_of_raw raw) as [e|[z|t]] eqn:Et; try discriminate Hp.
  exists t. split; [reflexivity|]. split; [|split].
  - intros Hpos. destruct (Z.ltb_spec 0 raw); [exact Hp | lia].
  - intros Hneg. destruct (Z.ltb_spec 0 raw); [lia | exact Hp].
  - intros ->. vm_compute in Et. congruence.
Qed.

Lemma set_hvac_mode_frame_self (f : Fancoil) (h : Hub) (mode : HVACMode)
    (o : outcome unit) (w' : world) :
  call (async_set_hvac_mode mode) f h = (o, w') -> self w' = f.
Proof. destruct mode; run_hvac; take_run; reflexivity. Qed.

(** X13: the mode attributes stay within the entity's lists: if
    [fan_mode] is unset or one of [_attr_fan_modes] and [hvac_mode] is unset
    or one of [_attr_hvac_modes], the same holds after a refresh and after
    each command, whatever the hub answers and whatever the arguments. *)
Theorem modes_stay_listed (f : Fancoil) (h : Hub) :
  modes_ok f ->
  modes_ok (self (snd (call async_update f h))) /\
  (forall mode, modes_ok (self (snd (call (async_set_hvac_mode mode) f h)))) /\
  (forall t, modes_ok (self (snd (call (async_set_temperature t) f h)))) /\
  (forall mode, modes_ok (self (snd (call (async_set_fan_mode mode) f h)))).
Proof.
  intros [Hfm Hhm]. split; [|split; [|split]].
  - destruct (call async_update f h) as [o w'] eqn:H. cbn [snd].
    by_runs H w'; unfold modes_ok; cbn [_attr_fan_mode _attr_hvac_mode];
      (split; [try exact Hfm | try exact Hhm]).
    all: intros m Hm; inversion Hm; subst; clear Hm.
    all: try (unfold fan_of_prg in Hfan;
              destruct (_is_set (reg_value r5) 2); [discriminate|];
              eapply nth_error_In; exact Hfan).
    apply hvac_of_season_some in Hseason.
    destruct (_is_set (reg_value r5) 7);
      destruct Hseason as [[_ ->]|[_ ->]]; cbn; tauto.
  - intros mode.
    destruct (call (async_set_hvac_mode mode) f h) as [o w'] eqn:H.
    apply set_hvac_mode_frame_self in H. cbn [snd]. rewrite H.
    split; assumption.
  - intros t. unfold call, async_set_temperature.
    destruct t as [v|]; [destruct (int_ (v * 10)) as [e|raw]|];
      plumb; try (step_write; plumb; destruct ok; plumb);
      cbn [snd self]; split; assumption.
  - intros mode. unfold call, async_set_fan_mode.
    destruct (index _attr_fan_modes mode) as [e|i] eqn:Hi; plumb.
    + cbn [snd self]. split; assumption.
    + unfold _attr_fan_modes at 1. plumb. step_read; plumb; step_write; plumb.
      destruct ok; plumb; cbn [snd self]; [|split; assumption].
      split; [|exact Hhm]. cbn [_attr_fan_mode]. intros m Hm.
      inversion Hm; subst.
      destruct (in_dec string_dec m _attr_fan_modes) as [Hy|Hn];
        [exact Hy|].
      rewrite (index_missing _ _ Hn) in Hi. discriminate.
Qed.

End WithHub.

Arguments self {Hub} w.
Arguments hub {Hub} w.
Arguments log {Hub} w.
Arguments mkWorld {Hub} self hub log.
Arguments call {Hub A} c f h.
Arguments async_update {Hub} async_pb_call_read.
Arguments async_set_hvac_mode {Hub} async_pb_call_read async_pb_call_write
  hvac_mode.
Arguments async_set_temperature {Hub} async_pb_call_write temperature.
Arguments async_set_fan_mode {Hub} async_pb_call_read async_pb_call_write
  fan_mode.

(** ** The properties on the simulated hub *)

(** The operations of an entity on the simulated hub. *)
Abbreviation sim_update := (call (async_update sim_read)).
Abbreviation sim_set_temperature t := (call (async_set_temperature sim_write t)).
Abbreviation sim_set_fan_mode m :=
  (call (async_set_fan_mode sim_read sim_write m)).

(** Find an event in the log of a run on the simulated hub. *)
Ltac in_sim_log :=
  vm_compute; repeat (first [left; reflexivity | right]).

(** Refute a membership in a short list of distinct values. *)
Ltac not_in_list :=
  vm_compute; intros H;
  repeat (destruct H as [H|H]; [discriminate H|]); exact H.

(** The specification's scenario: target 220, current 200, speed 3, water
    45, flags 1, season 0. *)
Example scenario_silent_heat :
  sim_update fresh (scenario 1 0) =
  (Value tt,
   mkWorld
     (mkFancoil 1 (Some (PyFloat 22)) (Some (PyFloat 20)) (Some 3) (Some 45)
        (Some "Silent"%string) (Some HEAT))
     (scenario 1 0)
     [PbRead 1 231 (Some 220); PbRead 1 0 (Some 200); PbRead 1 15 (Some 3);
      PbRead 1 1 (Some 45); PbRead 1 201 (Some 1); PbRead 1 233 (Some 0)]).
Proof. vm_compute. reflexivity. Qed.

(** The same with bit 7 of the flags set: Off, although season 0 is Heat. *)
Example scenario_silent_off :
  _attr_hvac_mode (self (snd (sim_update fresh (scenario 129 0)))) =
  Some OFF.
Proof. vm_compute. reflexivity. Qed.

(** A refresh over flags 4 (bit 2 set) keeps Night and Cool; one over
    flags 1 and season 9 keeps Cool. *)
Lemma async_update_abort_frame_witness :
  In (PbRead 1 201 (Some 4)) (log (snd (sim_update settled (scenario 4 5)))) /\
  ~ In (fan_pattern 4) recognized_patterns /\
  _attr_fan_mode (self (snd (sim_update settled (scenario 4 5)))) =
  Some "Night"%string /\
  _attr_hvac_mode (self (snd (sim_update settled (scenario 4 5)))) =
  Some COOL /\
  In (PbRead 1 233 (Some 9)) (log (snd (sim_update settled (scenario 1 9)))) /\
  ~ In 9 [0; 3; 5] /\
  _attr_hvac_mode (self (snd (sim_update settled (scenario 1 9)))) =
  Some COOL.
Proof.
  assert (Hin : In (PbRead 1 201 (Some 4))
                  (log (snd (sim_update settled (scenario 4 5)))))
    by in_sim_log.
  assert (Hbad : ~ In (fan_pattern 4) recognized_patterns) by not_in_list.
  split; [exact Hin|]. split; [exact Hbad|].
  destruct (async_update_abort_frame SimHub sim_read settled (scenario 4 5)
              _ _ (surjective_pairing _)) as [Hprg _].
  destruct (Hprg (Some 4) Hin Hbad) as [_ [_ [_ [Hfan Hhvac]]]].
  split; [exact Hfan|]. split; [exact Hhvac|].
  assert (Hin9 : In (PbRead 1 233 (Some 9))
                   (log (snd (sim_update settled (scenario 1 9)))))
    by in_sim_log.
  assert (Hbad9 : ~ In 9 [0; 3; 5]) by not_in_list.
  split; [exact Hin9|]. split; [exact Hbad9|].
  destruct (async_update_abort_frame SimHub sim_read settled (scenario 1 9)
              _ _ (surjective_pairing _)) as [_ [Hseason _]].
  exact (proj1 (proj2 (proj2 (Hseason (Some 9) Hin9 Hbad9)))).
Defined.

(** C1 as stated fails: the same refresh, abandoned at the flags, has
    already replaced the target temperature 21.0 by the 22.0 just read; and
    a refresh over the recognized flags 1, abandoned at the season 9, has
    also replaced the fan mode Night by Silent. *)
Lemma async_update_abort_overwrites :
  ~ In (fan_pattern 4) recognized_patterns /\
  In (PbRead 1 201 (Some 4)) (log (snd (sim_update settled (scenario 4 5)))) /\
  _attr_target_temperature settled = Some (PyFloat 21) /\
  _attr_target_temperature (self (snd (sim_update settled (scenario 4 5)))) =
  Some (PyFloat 22) /\
  _attr_target_temperature (self (snd (sim_update settled (scenario 4 5)))) <>
  _attr_target_temperature settled /\
  ~ In 9 [0; 3; 5] /\
  In (PbRead 1 233 (Some 9)) (log (snd (sim_update settled (scenario 1 9)))) /\
  In (LogError "Received invalid season value: %s" [9])
    (log (snd (sim_update settled (scenario 1 9)))) /\
  _attr_fan_mode settled = Some "Night"%string /\
  _attr_fan_mode (self (snd (sim_update settled (scenario 1 9)))) =
  Some "Silent"%string /\
  _attr_fan_mode (self (snd (sim_update settled (scenario 1 9)))) <>
  _attr_fan_mode settled.
Proof.
  split; [not_in_list|]. split; [in_sim_log|].
  split; [vm_compute; reflexivity|]. split; [vm_compute; reflexivity|].
  split.
  - intros H.
    apply (f_equal (fun t => match t with
                             | Some (PyFloat x) => PrimFloat.eqb x 21%float
                             | _ => false
                             end)) in H.
    vm_compute in H. discriminate H.
  - split; [not_in_list|]. split; [in_sim_log|]. split; [in_sim_log|].
    split; [vm_compute; reflexivity|]. split; [vm_compute; reflexivity|].
    vm_compute. intros H. discriminate H.
Qed.



(** Flags 1 decode to Silent, the mode at index 1. *)
Lemma fan_mode_decode_encode_witness :
  nth_error _attr_fan_modes 1 = Some "Silent"%string /\
  _attr_fan_mode (self (snd (sim_update fresh (scenario 1 0)))) =
  Some "Silent"%string.
Proof.
  split; [vm_compute; reflexivity|].
  destruct (fan_mode_decode_encode SimHub sim_read sim_write 1 "Silent"
              eq_refl) as [Hdec _].
  apply (Hdec fresh (scenario 1 0) _ _ (Some 1) (surjective_pairing _)).
  - in_sim_log.
  - vm_compute; reflexivity.
Defined.


(** Setting 21.5 writes 215. *)
Lemma set_temperature_raw_value_witness :
  int_ (21.5 * 10) = inr 215 /\
  exists (ok : bool) (h' : SimHub),
    sim_set_temperature (Some 21.5%float) fresh (scenario 1 0) =
    (Value tt,
     mkWorld
       (if ok
        then set_attr_target_temperature (Some (PyFloat 21.5)) fresh
        else fresh)
       h'
       (PbWrite 1 231 215 ok ::
        if ok then []
        else [LogError
                "Modbus error setting target temperature to Flexit" []])).
Proof.
  split; [vm_compute; reflexivity|].
  exact (proj1 (set_temperature_raw_value SimHub sim_write fresh
                  (scenario 1 0) 21.5%float 215 eq_refl)).
Defined.

(** C5 as stated fails: for 21.57 (binary64 [0x1.591eb851eb852p+4]) the
    product rounds to 216 and the value written is 215. *)
Lemma set_temperature_truncates :
  nearest_integer (0x1.591eb851eb852p+4 * 10) = inr 216 /\
  log (snd (sim_set_temperature (Some 0x1.591eb851eb852p+4%float) fresh
              (scenario 1 0))) =
  [PbWrite 1 231 215 true].
Proof. split; vm_compute; reflexivity. Qed.

(** Raw 220 in register 231 is stored as 22.0. *)
Lemma async_update_temperature_reads_witness :
  In (PbRead 1 231 (Some 220)) (log (snd (sim_update fresh (scenario 1 0)))) /\
  220 <> 0 /\ -32768 <= 220 <= 65535 /\
  exists x,
    float_ 220 = inr x /\
    _attr_target_temperature (self (snd (sim_update fresh (scenario 1 0)))) =
    Some (PyFloat (x / 10)).
Proof.
  assert (Hin : In (PbRead 1 231 (Some 220))
                  (log (snd (sim_update fresh (scenario 1 0)))))
    by in_sim_log.
  split; [exact Hin|]. split; [lia|]. split; [lia|].
  destruct (async_update_temperature_reads SimHub sim_read fresh
              (scenario 1 0) _ _ 220 (surjective_pairing _)) as [Htarget _].
  destruct (Htarget Hin) as [_ Hnz].
  apply Hnz; lia.
Defined.


(** "Turbo" is no fan mode of the entity. *)
Lemma set_fan_mode_unknown_raises_witness :
  ~ In "Turbo"%string _attr_fan_modes /\
  sim_set_fan_mode "Turbo" fresh (scenario 1 0) =
  (Raised ValueError, mkWorld fresh (scenario 1 0) []).
Proof.
  assert (Hn : ~ In "Turbo"%string _attr_fan_modes) by not_in_list.
  split; [exact Hn|].
  exact (set_fan_mode_unknown_raises SimHub sim_read sim_write fresh
           (scenario 1 0) "Turbo" Hn).
Defined.

(** On a bus that is down the flags read fails and the refresh ends at the
    invalid PRG. *)
Lemma read_failure_is_minus_one_witness :
  In (PbRead 1 201 None)
    (log (snd (sim_update fresh (mkSimHub false [])))) /\
  fst (sim_update fresh (mkSimHub false [])) = Value tt /\
  In (LogError "Received invalid PRG" [])
    (log (snd (sim_update fresh (mkSimHub false [])))).
Proof.
  assert (Hin : In (PbRead 1 201 None)
                  (log (snd (sim_update fresh (mkSimHub false [])))))
    by in_sim_log.
  split; [exact Hin|].
  destruct (read_failure_is_minus_one SimHub sim_read)
    as [_ [_ [_ Hupd]]].
  destruct (Hupd fresh (mkSimHub false []) _ _ (surjective_pairing _))
    as [Hprg _].
  destruct (Hprg Hin) as [Ho [Hlog _]].
  split; [exact Ho | exact Hlog].
Defined.

(** ** The further properties on the simulated hub *)

Abbreviation sim_set_hvac_mode m :=
  (call (async_set_hvac_mode sim_read sim_write m)).

(** A complete refresh reads the six registers in order. *)
Lemma async_update_reads_in_order_witness :
  writes_of (log (snd (sim_update fresh (scenario 1 0)))) = [] /\
  read_addresses (log (snd (sim_update fresh (scenario 1 0)))) =
  [231; 0; 15; 1; 201; 233].
Proof.
  destruct (async_update_reads_in_order SimHub sim_read fresh (scenario 1 0)
              _ _ (surjective_pairing _)) as [Hw _].
  split; [exact Hw | vm_compute; reflexivity].
Defined.

(** A refresh abandoned at flags 4 still reports water and fan speed. *)
Lemma extra_state_attributes_after_update_witness :
  In (PbRead 1 201 (Some 4)) (log (snd (sim_update settled (scenario 4 5)))) /\
  exists r15 r1,
    In (PbRead 1 15 r15) (log (snd (sim_update settled (scenario 4 5)))) /\
    In (PbRead 1 1 r1) (log (snd (sim_update settled (scenario 4 5)))) /\
    extra_state_attributes (self (snd (sim_update settled (scenario 4 5)))) =
    [("water_temperature"%string, Some (reg_value r1));
     ("fan_speed"%string, Some (reg_value r15))].
Proof.
  assert (Hin : In (PbRead 1 201 (Some 4))
                  (log (snd (sim_update settled (scenario 4 5)))))
    by in_sim_log.
  split; [exact Hin|].
  exact (extra_state_attributes_after_update SimHub sim_read settled
           (scenario 4 5) _ _ (Some 4) (surjective_pairing _) Hin).
Defined.

(** Bit 15 of -1 is set. *)
Lemma is_set_is_testbit_witness :
  0 <= 15 /\ _is_set (-1) 15 = Z.testbit (-1) 15.
Proof.
  split; [lia|]. exact (proj1 (is_set_is_testbit (-1) 15 ltac:(lia))).
Defined.

(** Cool over flags 129 writes 1 and then season 5. *)
Lemma set_hvac_mode_on_writes_witness :
  exists r ok1 ok2 h',
    let v := Z.land (reg_value r) (Z.lnot (Z.shiftl 1 7)) in
    fst (sim_read (scenario 129 0) (_slave fresh) 201) = r /\
    sim_set_hvac_mode COOL fresh (scenario 129 0) =
    (Value tt,
     mkWorld fresh h'
       (read_events (_slave fresh) 201 r ++
        [PbWrite (_slave fresh) 201 v ok1; PbWrite (_slave fresh) 233 5 ok2])) /\
    Z.testbit v 7 = false /\
    (forall n, n <> 7 -> Z.testbit v n = Z.testbit (reg_value r) n).
Proof.
  exact (set_hvac_mode_on_writes SimHub sim_read sim_write fresh
           (scenario 129 0) COOL 5 (or_introl (conj eq_refl eq_refl))).
Defined.

(** The mode Auto is logged and writes nothing. *)
Lemma set_hvac_mode_frame_witness :
  self (snd (sim_set_hvac_mode AUTO settled (scenario 1 0))) = settled /\
  writes_of (log (snd (sim_set_hvac_mode AUTO settled (scenario 1 0)))) = [].
Proof.
  destruct (set_hvac_mode_frame SimHub sim_read sim_write settled
              (scenario 1 0) AUTO _ _ (surjective_pairing _))
    as [_ [Hs [_ [_ [Hu _]]]]].
  split; [exact Hs|].
  apply Hu; discriminate.
Defined.

(** Flags 1, as Cool writes them over 129, and season 5 read back Cool. *)
Lemma hvac_mode_write_decodes_witness :
  In (PbRead 1 201 (Some 1)) (log (snd (sim_update fresh (scenario 1 5)))) /\
  In (PbRead 1 233 (Some 5)) (log (snd (sim_update fresh (scenario 1 5)))) /\
  _attr_hvac_mode (self (snd (sim_update fresh (scenario 1 5)))) = Some COOL.
Proof.
  assert (H1 : In (PbRead 1 201 (Some 1))
                 (log (snd (sim_update fresh (scenario 1 5)))))
    by in_sim_log.
  assert (H2 : In (PbRead 1 233 (Some 5))
                 (log (snd (sim_update fresh (scenario 1 5)))))
    by in_sim_log.
  split; [exact H1|]. split; [exact H2|].
  exact (proj1 (proj2
    (hvac_mode_write_decodes SimHub sim_read COOL 129 1 5 fresh
       (scenario 1 5) _ _
       (or_intror (or_introl (conj eq_refl (conj eq_refl eq_refl))))
       (surjective_pairing _) H1 H2))).
Defined.

(** High over flags 132 is one read and one write of register 201. *)
Lemma set_fan_mode_frame_witness :
  In "High"%string _attr_fan_modes /\
  fst (sim_set_fan_mode "High" fresh (scenario 132 0)) = Value tt /\
  read_addresses (log (snd (sim_set_fan_mode "High" fresh (scenario 132 0)))) =
  [201].
Proof.
  assert (Hin : In "High"%string _attr_fan_modes) by in_sim_log.
  split; [exact Hin|].
  destruct (set_fan_mode_frame SimHub sim_read sim_write fresh
              (scenario 132 0) "High" _ _ Hin (surjective_pairing _))
    as [Ho [Hr _]].
  split; [exact Ho | exact Hr].
Defined.

(** On a bus that is down, Off still writes: -1. *)
Lemma commands_write_after_failed_read_witness :
  sim_read (mkSimHub false []) (_slave fresh) 201 =
  (None, mkSimHub false []) /\
  writes_of (log (snd (sim_set_hvac_mode OFF fresh (mkSimHub false [])))) =
  [(201, -1)].
Proof.
  split; [reflexivity|].
  exact (proj1 (proj2
    (commands_write_after_failed_read SimHub sim_read sim_write fresh
       (mkSimHub false []) (mkSimHub false []) eq_refl))).
Defined.

(** 21.5 is written as 215 and read back as 21.5. *)
Lemma set_temperature_then_refresh_witness :
  tenths 215 = inr 21.5%float /\
  writes_of (log (snd (sim_set_temperature (Some 21.5%float) fresh
                         (scenario 1 0)))) =
  [(231, 215)].
Proof.
  assert (Ht : tenths 215 = inr 21.5%float) by (vm_compute; reflexivity).
  split; [exact Ht|].
  exact (proj1 (set_temperature_then_refresh SimHub sim_read sim_write 215
                  21.5%float ltac:(lia) Ht) fresh (scenario 1 0)).
Defined.

(** A call without a temperature only logs. *)
Lemma set_temperature_frame_witness :
  log (snd (sim_set_temperature None settled (scenario 1 0))) =
  [LogError "Received invalid temperature" []] /\
  self (snd (sim_set_temperature None settled (scenario 1 0))) = settled.
Proof.
  destruct (set_temperature_frame SimHub sim_read sim_write settled
              (scenario 1 0)
              None _ _ (surjective_pairing _)) as [_ [_ [_ Hn]]].
  destruct (Hn eq_refl) as [_ [Hs [_ Hl]]].
  split; [exact Hl | exact Hs].
Defined.

(** A NaN temperature raises. *)
Lemma set_temperature_non_finite_witness :
  is_nan (nan * 10) = true /\
  sim_set_temperature (Some nan) fresh (scenario 1 0) =
  (Raised ValueError, mkWorld fresh (scenario 1 0) []).
Proof.
  assert (Hn : is_nan (nan * 10) = true) by (vm_compute; reflexivity).
  split; [exact Hn|].
  exact (proj1 (set_temperature_non_finite SimHub sim_write fresh
                  (scenario 1 0) nan) Hn).
Defined.

(** An unsigned 65535 in a temperature register is 6553.5. *)
Lemma read_temp_keeps_sign_witness :
  exists t,
    fst (_async_read_temp_from_register SimHub sim_read 231
           (mkWorld fresh (mkSimHub true [(231, 65535)]) [])) =
    Value (PyFloat t) /\
    (0 < 65535 -> (0 <? t)%float = true) /\
    (65535 < 0 -> (t <? 0)%float = true) /\
    (65535 = 65535 -> t = 6553.5%float).
Proof.
  exact (read_temp_keeps_sign SimHub sim_read 231 65535
           (mkWorld fresh (mkSimHub true [(231, 65535)]) [])
           (mkSimHub true [(231, 65535)]) eq_refl ltac:(lia) ltac:(lia)).
Defined.

(** The settled entity holds listed modes, and keeps listed modes over a
    refresh. *)
Lemma modes_stay_listed_witness :
  modes_ok settled /\
  modes_ok (self (snd (sim_update settled (scenario 1 0)))).
Proof.
  assert (Hok : modes_ok settled).
  { split; intros m Hm; inversion Hm; in_sim_log. }
  split; [exact Hok|].
  exact (proj1 (modes_stay_listed SimHub sim_read sim_write settled
                  (scenario 1 0) Hok)).
Defined.
